(** * Factory Physics production-line formulas: a shallow embedding

    The development embeds [factoryphysics.py]: the class [ProductionLine]
    with its six closed-form evaluations (cycle time and throughput in the
    best case, the worst case and the practical worst case), the
    tabulation routine [df_scenarios], and [plot_scenarios], which draws
    the table (the figure is modelled as the data handed to the plotting
    library).

    Numbers.  The Python code is written over duck-typed numbers.  They are
    modelled as exact rationals ([Q], the arithmetic of Python's [int] and
    [fractions.Fraction]); rounding of binary floating point is not
    modelled.  Two rationals are the same number when they are [Qeq]
    ([==]), so results are compared up to [==].

    Exceptions.  Python's true division [/] raises [ZeroDivisionError] on a
    zero divisor, and looking up a missing column raises [KeyError]; a
    raised exception aborts the enclosing call.  This is the error monad
    [result] below. *)

From Stdlib Require Import QArith Lqa Lia ZArith List String Sorted.
Import ListNotations.

Local Open Scope Q_scope.

(** ** Exceptions and the error monad *)

(** The exceptions of the model.  [ZeroDivisionError] and [KeyError] are the
    ones the operations of the source can raise.  [InvalidParameterError]
    is the error kind the specification names; it is part of the type so
    that statements about it can be written, and no operation of the source
    constructs it. *)
Inductive exn : Type :=
| ZeroDivisionError
| KeyError
| InvalidParameterError.

Inductive result (A : Type) : Type :=
| Ok (a : A)
| Raise (e : exn).

Arguments Ok {A} a.
Arguments Raise {A} e.

Definition bind {A B : Type} (m : result A) (k : A -> result B) : result B :=
  match m with
  | Ok a => k a
  | Raise e => Raise e
  end.

Notation "x <- m ;; k" := (bind m (fun x => k))
  (at level 61, m at next level, right associativity).

(** [returns m v]: the call [m] returns a number equal to [v]. *)
Definition returns (m : result Q) (v : Q) : Prop :=
  match m with
  | Ok x => x == v
  | Raise _ => False
  end.

(** [raises m e]: the call [m] raises the exception [e]. *)
Definition raises {A : Type} (m : result A) (e : exn) : Prop :=
  match m with
  | Ok _ => False
  | Raise e' => e' = e
  end.

(** [defined m]: the call [m] returns some value (raises nothing). *)
Definition defined {A : Type} (m : result A) : Prop :=
  match m with
  | Ok _ => True
  | Raise _ => False
  end.

(** Python's [n / d]. *)
Definition truediv (n d : Q) : result Q :=
  if Qeq_bool d 0 then Raise ZeroDivisionError else Ok (n / d).

(** ** class ProductionLine *)

Record ProductionLine : Type := mkProductionLine {
  r_b : Q;
  T_0 : Q;
  W_0 : Q;
  _name : option string
}.

(** [ProductionLine.__init__(self, r_b, T_0, name=None)]. *)
Definition init (r_b T_0 : Q) (name : option string) : result ProductionLine :=
  Ok {| r_b := r_b; T_0 := T_0; W_0 := r_b * T_0; _name := name |}.

(** The property [name]. *)
Definition name (self : ProductionLine) : option string := _name self.

Definition CT_best (self : ProductionLine) (w : Q) : result Q :=
  if Qle_bool w (W_0 self) then Ok (T_0 self)
  else truediv w (r_b self).

Definition TH_best (self : ProductionLine) (w : Q) : result Q :=
  if Qle_bool w (W_0 self) then truediv w (T_0 self)
  else Ok (r_b self).

Definition CT_worst (self : ProductionLine) (w : Q) : result Q :=
  Ok (w * T_0 self).

Definition TH_worst (self : ProductionLine) : result Q :=
  truediv 1 (T_0 self).

Definition CT_PWC (self : ProductionLine) (w : Q) : result Q :=
  q <- truediv (w - 1) (r_b self) ;;
  Ok (T_0 self + q).

Definition TH_PWC (self : ProductionLine) (w : Q) : result Q :=
  q <- truediv w (W_0 self + w - 1) ;;
  Ok (q * r_b self).

(** ** The data frame of [df_scenarios] *)

(** A [pandas.DataFrame] as the function uses it: an integer index and named
    columns in insertion order, every column as long as the index. *)
Record DataFrame : Type := mkDataFrame {
  index : list Z;
  columns : list (string * list Q)
}.

(** [np.arange(start, stop)] on integers: [start, start+1, ..., stop-1],
    empty when [stop <= start]. *)
Definition arange (start stop : Z) : list Z :=
  map (fun i => (start + Z.of_nat i)%Z) (seq 0 (Z.to_nat (stop - start))).

(** [pd.DataFrame(index=idx)]. *)
Definition DataFrame_new (idx : list Z) : DataFrame :=
  {| index := idx; columns := [] |}.

Fixpoint lookup (k : string) (cols : list (string * list Q)) : option (list Q) :=
  match cols with
  | [] => None
  | (k', s) :: rest => if String.eqb k k' then Some s else lookup k rest
  end.

(** Assignment to a column: an existing column is replaced in place, a new
    one is appended after the others. *)
Fixpoint assign (k : string) (s : list Q) (cols : list (string * list Q))
  : list (string * list Q) :=
  match cols with
  | [] => [(k, s)]
  | (k', s') :: rest =>
      if String.eqb k k' then (k, s) :: rest else (k', s') :: assign k s rest
  end.

(** [df[k]]. *)
Definition getitem (df : DataFrame) (k : string) : result (list Q) :=
  match lookup k (columns df) with
  | Some s => Ok s
  | None => Raise KeyError
  end.

(** [df[k] = s] for a series [s] over the index of [df]. *)
Definition setitem (df : DataFrame) (k : string) (s : list Q) : DataFrame :=
  {| index := index df; columns := assign k s (columns df) |}.

(** [df[k] = x] for a scalar [x]: the value is broadcast to every row. *)
Definition setitem_scalar (df : DataFrame) (k : string) (x : Q) : DataFrame :=
  setitem df k (repeat x (List.length (index df))).

(** [s.apply(f)]: [f] is called on the elements in order; the first
    exception aborts the call. *)
Fixpoint apply (f : Q -> result Q) (s : list Q) : result (list Q) :=
  match s with
  | [] => Ok []
  | x :: rest =>
      y <- f x ;;
      ys <- apply f rest ;;
      Ok (y :: ys)
  end.

Definition df_scenarios (pl : ProductionLine) (max_wip : Z) : result DataFrame :=
  let df := DataFrame_new (arange 1 (max_wip + 1)) in
  let df := setitem df "WIP" (map inject_Z (index df)) in
  wip <- getitem df "WIP" ;;
  th_best <- apply (TH_best pl) wip ;;
  let df := setitem df "TH Best Case" th_best in
  th_worst <- TH_worst pl ;;
  let df := setitem_scalar df "TH Worst Case" th_worst in
  wip <- getitem df "WIP" ;;
  th_pwc <- apply (TH_PWC pl) wip ;;
  let df := setitem df "TH Practical Worst Case" th_pwc in
  wip <- getitem df "WIP" ;;
  ct_best <- apply (CT_best pl) wip ;;
  let df := setitem df "CT Best Case" ct_best in
  wip <- getitem df "WIP" ;;
  ct_worst <- apply (CT_worst pl) wip ;;
  let df := setitem df "CT Worst Case" ct_worst in
  wip <- getitem df "WIP" ;;
  ct_pwc <- apply (CT_PWC pl) wip ;;
  let df := setitem df "CT Practical Worst Case" ct_pwc in
  Ok df.

(** Number of rows, and the cell of column [k] in row [i] (counted from 0). *)
Definition nrows (df : DataFrame) : nat := List.length (index df).

Definition cell (df : DataFrame) (k : string) (i : nat) : option Q :=
  match lookup k (columns df) with
  | Some s => nth_error s i
  | None => None
  end.

(** The line of the specification's worked example: [r_b = 0.5], [T_0 = 10]. *)
Definition example_line : ProductionLine :=
  {| r_b := 1 # 2; T_0 := 10; W_0 := (1 # 2) * 10; _name := None |}.

(** ** Predicates and values of the statements *)

(** A line built by [__init__] from positive parameters. *)
Definition valid_line (rb t0 : Q) (nm : option string) (pl : ProductionLine) : Prop :=
  0 < rb /\ 0 < t0 /\ init rb t0 nm = Ok pl.

(** The line [r_b = 0.5], [T_0 = 1], whose critical WIP is [0.5]. *)
Definition half_line : ProductionLine :=
  {| r_b := 1 # 2; T_0 := 1; W_0 := (1 # 2) * 1; _name := None |}.

(** [littles_law th ct w]: both calls return, and throughput times cycle
    time is the WIP level [w]. *)
Definition littles_law (th ct : result Q) (w : Q) : Prop :=
  exists a b : Q, th = Ok a /\ ct = Ok b /\ a * b == w.

(** The two branches of [CT_best] and of [TH_best], as functions of their
    own: [_below] is the branch taken when [w <= W_0], [_above] the other. *)
Definition CT_best_below (self : ProductionLine) (w : Q) : result Q :=
  Ok (T_0 self).
Definition CT_best_above (self : ProductionLine) (w : Q) : result Q :=
  truediv w (r_b self).
Definition TH_best_below (self : ProductionLine) (w : Q) : result Q :=
  truediv w (T_0 self).
Definition TH_best_above (self : ProductionLine) (w : Q) : result Q :=
  Ok (r_b self).

Definition lt_results (x y : result Q) : Prop :=
  exists a b : Q, x = Ok a /\ y = Ok b /\ a < b.

Definition le_results (x y : result Q) : Prop :=
  exists a b : Q, x = Ok a /\ y = Ok b /\ a <= b.

(** The table of [df_scenarios] with no row: an empty index and the seven
    columns, each empty. *)
Definition empty_frame : DataFrame :=
  {| index := [];
     columns := [("WIP"%string, []); ("TH Best Case"%string, []);
                 ("TH Worst Case"%string, []);
                 ("TH Practical Worst Case"%string, []);
                 ("CT Best Case"%string, []); ("CT Worst Case"%string, []);
                 ("CT Practical Worst Case"%string, [])] |}.

(** The names of the columns, in the order [df_scenarios] creates them. *)
Definition scenario_columns : list string :=
  ["WIP"; "TH Best Case"; "TH Worst Case"; "TH Practical Worst Case";
   "CT Best Case"; "CT Worst Case"; "CT Practical Worst Case"]%string.

(** [row_holds pl df i w]: row [i] of [df] is the row of WIP level [w]: its
    WIP cell is [w] and its other cells are what the six evaluations of
    [pl] return at [w]. *)
Definition row_holds (pl : ProductionLine) (df : DataFrame) (i : nat) (w : Q)
  : Prop :=
  cell df "WIP" i = Some w /\
  (exists v : Q, cell df "TH Best Case" i = Some v /\ TH_best pl w = Ok v) /\
  (exists v : Q, cell df "TH Worst Case" i = Some v /\ TH_worst pl = Ok v) /\
  (exists v : Q,
     cell df "TH Practical Worst Case" i = Some v /\ TH_PWC pl w = Ok v) /\
  (exists v : Q, cell df "CT Best Case" i = Some v /\ CT_best pl w = Ok v) /\
  (exists v : Q, cell df "CT Worst Case" i = Some v /\ CT_worst pl w = Ok v) /\
  (exists v : Q,
     cell df "CT Practical Worst Case" i = Some v /\ CT_PWC pl w = Ok v).

(** ** The figure of [plot_scenarios] *)

(** [s.max()]: the largest element; of an empty series it is not a number,
    which is [None] here. *)
Fixpoint Series_max (s : list Q) : option Q :=
  match s with
  | [] => None
  | x :: rest =>
      match Series_max rest with
      | None => Some x
      | Some m => Some (if Qle_bool x m then m else x)
      end
  end.

(** The [line=dict(color=..., width=..., dash=...)] of a shape. *)
Record LineStyle : Type := mkLineStyle {
  color : string;
  width : Q;
  dash : string
}.

(** A shape of the layout, as [fig.add_shape] receives it. *)
Record Shape : Type := mkShape {
  shape_type : string;
  x0 : Q;
  y0 : Q;
  x1 : option Q;
  y1 : Q;
  line : LineStyle
}.

(** A [go.Scatter(x=..., y=..., name=...)] trace. *)
Record Scatter : Type := mkScatter {
  trace_x : list Q;
  trace_y : list Q;
  trace_name : string
}.

(** An entry of [annotations]. *)
Record Annotation : Type := mkAnnotation {
  ann_x : Q;
  ann_y : Q;
  xref : string;
  yref : string;
  text : string;
  showarrow : bool;
  arrowhead : Z;
  ax : Z;
  ay : Z
}.

(** A [go.Figure] as [plot_scenarios] builds it: the traces in the order
    they are added, and the parts of the layout the function sets (a part
    not set yet is [None] or the empty list). *)
Record Figure : Type := mkFigure {
  data : list Scatter;
  shapes : list Shape;
  xaxis_range : option (Q * option Q);
  yaxis_range : option (Q * Q);
  title : option string;
  xaxis_title : option string;
  yaxis_title : option string;
  showlegend : option bool;
  annotations : list Annotation
}.

(** [go.Figure()]. *)
Definition Figure_new : Figure :=
  {| data := []; shapes := []; xaxis_range := None; yaxis_range := None;
     title := None; xaxis_title := None; yaxis_title := None;
     showlegend := None; annotations := [] |}.

Definition add_shape (fig : Figure) (s : Shape) : Figure :=
  {| data := data fig; shapes := shapes fig ++ [s];
     xaxis_range := xaxis_range fig; yaxis_range := yaxis_range fig;
     title := title fig; xaxis_title := xaxis_title fig;
     yaxis_title := yaxis_title fig; showlegend := showlegend fig;
     annotations := annotations fig |}.

Definition add_trace (fig : Figure) (t : Scatter) : Figure :=
  {| data := data fig ++ [t]; shapes := shapes fig;
     xaxis_range := xaxis_range fig; yaxis_range := yaxis_range fig;
     title := title fig; xaxis_title := xaxis_title fig;
     yaxis_title := yaxis_title fig; showlegend := showlegend fig;
     annotations := annotations fig |}.

(** [fig.update_xaxes(range=[lo, hi])]. *)
Definition update_xaxes (fig : Figure) (lo : Q) (hi : option Q) : Figure :=
  {| data := data fig; shapes := shapes fig;
     xaxis_range := Some (lo, hi); yaxis_range := yaxis_range fig;
     title := title fig; xaxis_title := xaxis_title fig;
     yaxis_title := yaxis_title fig; showlegend := showlegend fig;
     annotations := annotations fig |}.

(** [fig.update_yaxes(range=[lo, hi])]. *)
Definition update_yaxes (fig : Figure) (lo hi : Q) : Figure :=
  {| data := data fig; shapes := shapes fig;
     xaxis_range := xaxis_range fig; yaxis_range := Some (lo, hi);
     title := title fig; xaxis_title := xaxis_title fig;
     yaxis_title := yaxis_title fig; showlegend := showlegend fig;
     annotations := annotations fig |}.

(** [fig.update_layout(title=..., xaxis_title=..., yaxis_title=...)]. *)
Definition update_layout_titles (fig : Figure) (t xt yt : string) : Figure :=
  {| data := data fig; shapes := shapes fig;
     xaxis_range := xaxis_range fig; yaxis_range := yaxis_range fig;
     title := Some t; xaxis_title := Some xt; yaxis_title := Some yt;
     showlegend := showlegend fig; annotations := annotations fig |}.

(** [fig.update_layout(showlegend=..., annotations=[...])]. *)
Definition update_layout_legend (fig : Figure) (b : bool)
    (anns : list Annotation) : Figure :=
  {| data := data fig; shapes := shapes fig;
     xaxis_range := xaxis_range fig; yaxis_range := yaxis_range fig;
     title := title fig; xaxis_title := xaxis_title fig;
     yaxis_title := yaxis_title fig;
     showlegend := Some b; annotations := anns |}.

(** The dashed black line style of the two horizontal lines. *)
Definition dashed_black : LineStyle :=
  {| color := "black"; width := 1; dash := "dash" |}.

(** [str(x)] for the name of a line: the string itself, and ["None"] for
    [None]. *)
Definition str_name (nm : option string) : string :=
  match nm with
  | Some s => s
  | None => "None"
  end.

(** [plot_scenarios(ProductionLine, max_wip)].  The function ends with
    [return fig.show()], which displays the figure; the model returns the
    figure that is displayed. *)
Definition plot_scenarios (pl : ProductionLine) (max_wip : Z) : result Figure :=
  df <- df_scenarios pl max_wip ;;
  let fig := Figure_new in
  wip <- getitem df "WIP" ;;
  let fig := add_shape fig
    {| shape_type := "line"; x0 := 0; y0 := r_b pl;
       x1 := Series_max wip; y1 := r_b pl; line := dashed_black |} in
  h0 <- truediv 1 (T_0 pl) ;;
  wip <- getitem df "WIP" ;;
  h1 <- truediv 1 (T_0 pl) ;;
  let fig := add_shape fig
    {| shape_type := "line"; x0 := 0; y0 := h0;
       x1 := Series_max wip; y1 := h1; line := dashed_black |} in
  x <- getitem df "WIP" ;;
  y <- getitem df "TH Practical Worst Case" ;;
  let fig := add_trace fig
    {| trace_x := x; trace_y := y; trace_name := "Practical Worst Case" |} in
  x <- getitem df "WIP" ;;
  y <- getitem df "TH Worst Case" ;;
  let fig := add_trace fig
    {| trace_x := x; trace_y := y; trace_name := "Worst Case" |} in
  x <- getitem df "WIP" ;;
  y <- getitem df "TH Best Case" ;;
  let fig := add_trace fig
    {| trace_x := x; trace_y := y; trace_name := "Best Case" |} in
  wip <- getitem df "WIP" ;;
  let fig := update_xaxes fig 0 (Series_max wip) in
  let fig := update_yaxes fig 0 (1 # 2) in
  let fig := update_layout_titles fig
    ("Throughput Time vs WIP for " ++ str_name (_name pl))
    "WIP" "Throughput (parts/unit time)" in
  let fig := update_layout_legend fig true
    [{| ann_x := 5 # 2; ann_y := r_b pl; xref := "x"; yref := "y";
        text := "Bottleneck Rate (r_b)"; showarrow := true;
        arrowhead := 7; ax := 0; ay := -40 |}] in
  Ok fig.

(** ** Further predicates of the statements *)

(** The larger and the smaller of two numbers. *)
Definition Qmax (x y : Q) : Q := if Qle_bool x y then y else x.
Definition Qmin (x y : Q) : Q := if Qle_bool x y then x else y.

(** [only_zero_division m]: the call [m] returns, or the exception it raises
    is [ZeroDivisionError]. *)
Definition only_zero_division {A : Type} (m : result A) : Prop :=
  defined m \/ m = Raise ZeroDivisionError.

(** The frame [df_scenarios] assembles from its index and the values of
    its six computed columns. *)
Definition scenario_frame (idx : list Z) (th_best : list Q) (th_worst : Q)
    (th_pwc ct_best ct_worst ct_pwc : list Q) : DataFrame :=
  {| index := idx;
     columns :=
       [("WIP"%string, map inject_Z idx);
        ("TH Best Case"%string, th_best);
        ("TH Worst Case"%string, repeat th_worst (List.length idx));
        ("TH Practical Worst Case"%string, th_pwc);
        ("CT Best Case"%string, ct_best);
        ("CT Worst Case"%string, ct_worst);
        ("CT Practical Worst Case"%string, ct_pwc)] |}.

(** [row_littles_law df i]: in row [i] of [df], throughput times cycle time
    is the WIP level of the row, in each of the three regimes. *)
Definition row_littles_law (df : DataFrame) (i : nat) : Prop :=
  exists w thb ctb thw ctw thp ctp : Q,
    cell df "WIP" i = Some w /\
    cell df "TH Best Case" i = Some thb /\
    cell df "CT Best Case" i = Some ctb /\
    cell df "TH Worst Case" i = Some thw /\
    cell df "CT Worst Case" i = Some ctw /\
    cell df "TH Practical Worst Case" i = Some thp /\
    cell df "CT Practical Worst Case" i = Some ctp /\
    thb * ctb == w /\ thw * ctw == w /\ thp * ctp == w.

(** A line with a negative rate, [r_b = -1] and [T_0 = 1], and the table of
    its first WIP level. *)
Definition negative_line : ProductionLine :=
  {| r_b := -1; T_0 := 1; W_0 := -1 * 1; _name := None |}.

Definition negative_table : DataFrame :=
  scenario_frame [1%Z] [-1] (1 / 1) [1 / (-1 * 1 + 1 - 1) * -1]
    [1 / -1] [1 * 1] [1 + (1 - 1) / -1].

(** ** Basic facts *)

Lemma truediv_nonzero (n d : Q) : ~ d == 0 -> truediv n d = Ok (n / d).
Proof.
  intros Hd. unfold truediv.
  destruct (Qeq_bool d 0) eqn:E; [|reflexivity].
  apply Qeq_bool_iff in E. contradiction.
Qed.

Lemma truediv_zero (n d : Q) : d == 0 -> truediv n d = Raise ZeroDivisionError.
Proof.
  intros Hd. unfold truediv.
  apply Qeq_bool_iff in Hd. now rewrite Hd.
Qed.

Lemma Qle_bool_false (x y : Q) : Qle_bool x y = false <-> y < x.
Proof.
  split; intros H.
  - apply Qnot_le_lt. intros Hle. apply Qle_bool_iff in Hle. congruence.
  - destruct (Qle_bool x y) eqn:E; [|reflexivity].
    apply Qle_bool_iff in E. lra.
Qed.

Lemma init_fields (rb t0 : Q) (nm : option string) (pl : ProductionLine) :
  init rb t0 nm = Ok pl ->
  r_b pl = rb /\ T_0 pl = t0 /\ W_0 pl = rb * t0 /\ _name pl = nm.
Proof.
  unfold init. intros H. injection H as <-. repeat split.
Qed.

Lemma init_example_line : init (1 # 2) 10 None = Ok example_line.
Proof. reflexivity. Qed.

Lemma valid_line_fields (rb t0 : Q) (nm : option string) (pl : ProductionLine) :
  valid_line rb t0 nm pl ->
  0 < rb /\ 0 < t0 /\ r_b pl = rb /\ T_0 pl = t0 /\ W_0 pl = rb * t0.
Proof.
  intros (Hr & Ht & Hi). apply init_fields in Hi as (-> & -> & -> & _).
  repeat split; assumption.
Qed.

Ltac line_fields H :=
  apply valid_line_fields in H as (?Hrb & ?Ht0 & ?Er & ?Et & ?Ew).

(** ** Best case *)

(** C1: for a line with r_b > 0 and T_0 > 0 and every w > 0, CT_best(w)
    returns T_0 when w <= W_0 and w / r_b when w > W_0, and TH_best(w)
    returns w / T_0 when w <= W_0 and r_b when w > W_0, where
    W_0 = r_b * T_0. *)
Theorem best_case_branches (rb t0 : Q) (nm : option string)
    (pl : ProductionLine) (w : Q) :
  valid_line rb t0 nm pl -> 0 < w ->
  W_0 pl = rb * t0 /\
  (w <= W_0 pl -> CT_best pl w = Ok t0 /\ TH_best pl w = Ok (w / t0)) /\
  (W_0 pl < w -> CT_best pl w = Ok (w / rb) /\ TH_best pl w = Ok rb).
Proof.
  intros Hv Hw. line_fields Hv.
  split; [assumption|]. unfold CT_best, TH_best. rewrite Er, Et.
  split; intros Hc.
  - apply Qle_bool_iff in Hc. rewrite Hc.
    split; [reflexivity|]. apply truediv_nonzero. lra.
  - apply Qle_bool_false in Hc. rewrite Hc.
    split; [|reflexivity]. apply truediv_nonzero. lra.
Qed.

Lemma best_case_branches_witness :
  W_0 example_line = (1 # 2) * 10 /\
  (3 <= W_0 example_line ->
   CT_best example_line 3 = Ok 10 /\ TH_best example_line 3 = Ok (3 / 10)) /\
  (W_0 example_line < 3 ->
   CT_best example_line 3 = Ok (3 / (1 # 2)) /\
   TH_best example_line 3 = Ok (1 # 2)).
Proof.
  apply (best_case_branches (1 # 2) 10 None example_line 3).
  - repeat split; reflexivity.
  - reflexivity.
Defined.

(** ** Worst case and practical worst case *)

Lemma valid_example_line : valid_line (1 # 2) 10 None example_line.
Proof. repeat split; reflexivity. Qed.

Lemma valid_half_line : valid_line (1 # 2) 1 None half_line.
Proof. repeat split; reflexivity. Qed.

(** [TH_PWC] by cases on its divisor. *)
Lemma TH_PWC_cases (pl : ProductionLine) (w : Q) :
  (~ W_0 pl + w - 1 == 0 ->
   TH_PWC pl w = Ok (w / (W_0 pl + w - 1) * r_b pl)) /\
  (W_0 pl + w - 1 == 0 -> TH_PWC pl w = Raise ZeroDivisionError).
Proof.
  unfold TH_PWC. split; intros Hd.
  - now rewrite (truediv_nonzero _ _ Hd).
  - now rewrite (truediv_zero _ _ Hd).
Qed.

(** C2, as the specification states it, fails: on the valid line
    r_b = 0.5, T_0 = 1 (so W_0 = 0.5) and at the positive WIP level
    w = 0.5 the divisor W_0 + w - 1 of TH_PWC is zero, and the call raises
    ZeroDivisionError instead of returning the value of the formula. *)
Lemma formulas_counterexample :
  valid_line (1 # 2) 1 None half_line /\ 0 < 1 # 2 /\
  TH_PWC half_line (1 # 2) = Raise ZeroDivisionError /\
  ~ returns (TH_PWC half_line (1 # 2))
      ((1 # 2) / (W_0 half_line + (1 # 2) - 1) * r_b half_line).
Proof.
  split; [exact valid_half_line|].
  split; [reflexivity|].
  split; [reflexivity|].
  simpl. intros H. exact H.
Qed.

(** C2, amended: for a line with r_b > 0 and T_0 > 0 and every w > 0,
    CT_worst(w) = w * T_0, TH_worst() = 1 / T_0,
    CT_PWC(w) = T_0 + (w - 1) / r_b, and, whenever W_0 + w - 1 is not zero,
    TH_PWC(w) = (w / (W_0 + w - 1)) * r_b (when it is zero the call raises
    ZeroDivisionError).  For r_b = 0.5 and T_0 = 10, W_0 = 5 and
    CT_best(3) = 10, CT_best(8) = 16, TH_worst() = 0.1, CT_PWC(5) = 18 and
    TH_PWC(5) = 5/18. *)
Theorem formulas :
  (forall (rb t0 : Q) (nm : option string) (pl : ProductionLine) (w : Q),
     valid_line rb t0 nm pl -> 0 < w ->
     CT_worst pl w = Ok (w * t0) /\
     TH_worst pl = Ok (1 / t0) /\
     CT_PWC pl w = Ok (t0 + (w - 1) / rb) /\
     (~ W_0 pl + w - 1 == 0 ->
      TH_PWC pl w = Ok (w / (W_0 pl + w - 1) * rb)) /\
     (W_0 pl + w - 1 == 0 -> TH_PWC pl w = Raise ZeroDivisionError)) /\
  (valid_line (1 # 2) 10 None example_line /\
   W_0 example_line == 5 /\
   returns (CT_best example_line 3) 10 /\
   returns (CT_best example_line 8) 16 /\
   returns (TH_worst example_line) (1 # 10) /\
   returns (CT_PWC example_line 5) 18 /\
   returns (TH_PWC example_line 5) ((5 # 9) * (1 # 2)) /\
   returns (TH_PWC example_line 5) (5 # 18)).
Proof.
  split.
  - intros rb t0 nm pl w Hv Hw. line_fields Hv.
    split; [unfold CT_worst; now rewrite Et|].
    split; [unfold TH_worst; rewrite Et; apply truediv_nonzero; lra|].
    split.
    + unfold CT_PWC. rewrite Er, Et.
      rewrite truediv_nonzero by lra. reflexivity.
    + rewrite <- Er. apply TH_PWC_cases.
  - split; [exact valid_example_line|].
    repeat split; vm_compute; reflexivity.
Qed.

Lemma formulas_witness :
  CT_worst example_line 5 = Ok (5 * 10) /\
  TH_worst example_line = Ok (1 / 10) /\
  CT_PWC example_line 5 = Ok (10 + (5 - 1) / (1 # 2)) /\
  (~ W_0 example_line + 5 - 1 == 0 ->
   TH_PWC example_line 5 = Ok (5 / (W_0 example_line + 5 - 1) * (1 # 2))) /\
  (W_0 example_line + 5 - 1 == 0 ->
   TH_PWC example_line 5 = Raise ZeroDivisionError).
Proof.
  apply (proj1 formulas (1 # 2) 10 None example_line 5).
  - repeat split; reflexivity.
  - reflexivity.
Defined.

(** ** Little's Law *)

Lemma valid_line_divisor (rb t0 : Q) (nm : option string)
    (pl : ProductionLine) (w : Q) :
  valid_line rb t0 nm pl -> 1 <= w -> 0 < W_0 pl + w - 1.
Proof.
  intros Hv Hw. line_fields Hv. rewrite Ew.
  assert (0 < rb * t0) by (apply Qmult_lt_0_compat; assumption). lra.
Qed.

Lemma littles_law_PWC (rb t0 : Q) (nm : option string)
    (pl : ProductionLine) (w : Q) :
  valid_line rb t0 nm pl -> ~ W_0 pl + w - 1 == 0 ->
  littles_law (TH_PWC pl w) (CT_PWC pl w) w.
Proof.
  intros Hv Hd. destruct (TH_PWC_cases pl w) as [Hth _].
  specialize (Hth Hd). line_fields Hv.
  exists (w / (W_0 pl + w - 1) * r_b pl), (T_0 pl + (w - 1) / r_b pl).
  split; [assumption|]. split.
  - unfold CT_PWC. rewrite truediv_nonzero by (rewrite Er; lra). reflexivity.
  - rewrite Ew in *. rewrite Er, Et. field. split; [lra|assumption].
Qed.

(** C4, as the specification states it, fails in the practical worst case:
    on the valid line r_b = 0.5, T_0 = 1 at w = 0.5 the cycle time
    CT_PWC(w) is 0 and TH_PWC(w) raises ZeroDivisionError, so no throughput
    multiplies with the cycle time to w. *)
Lemma littles_law_counterexample :
  valid_line (1 # 2) 1 None half_line /\ 0 < 1 # 2 /\
  returns (CT_PWC half_line (1 # 2)) 0 /\
  TH_PWC half_line (1 # 2) = Raise ZeroDivisionError /\
  ~ littles_law (TH_PWC half_line (1 # 2)) (CT_PWC half_line (1 # 2)) (1 # 2).
Proof.
  split; [exact valid_half_line|].
  split; [reflexivity|].
  split; [vm_compute; reflexivity|].
  split; [reflexivity|].
  intros (a & b & Ha & _). discriminate Ha.
Qed.

(** C4, amended: for a line with r_b > 0 and T_0 > 0 and every w > 0,
    TH_best(w) * CT_best(w) = w and TH_worst() * CT_worst(w) = w; and
    TH_PWC(w) * CT_PWC(w) = w for every such w with W_0 + w - 1 nonzero, in
    particular for every w >= 1 (exact arithmetic). *)
Theorem littles_law_regimes (rb t0 : Q) (nm : option string)
    (pl : ProductionLine) (w : Q) :
  valid_line rb t0 nm pl -> 0 < w ->
  littles_law (TH_best pl w) (CT_best pl w) w /\
  littles_law (TH_worst pl) (CT_worst pl w) w /\
  (~ W_0 pl + w - 1 == 0 -> littles_law (TH_PWC pl w) (CT_PWC pl w) w) /\
  (1 <= w -> littles_law (TH_PWC pl w) (CT_PWC pl w) w).
Proof.
  intros Hv Hw. pose proof Hv as Hv'. line_fields Hv'.
  split; [|split; [|split]].
  - unfold littles_law, TH_best, CT_best.
    destruct (Qle_bool w (W_0 pl)).
    + exists (w / T_0 pl), (T_0 pl).
      split; [apply truediv_nonzero; rewrite Et; lra|].
      split; [reflexivity|]. rewrite Et. field. lra.
    + exists (r_b pl), (w / r_b pl).
      split; [reflexivity|].
      split; [apply truediv_nonzero; rewrite Er; lra|].
      rewrite Er. field. lra.
  - exists (1 / T_0 pl), (w * T_0 pl).
    split; [apply truediv_nonzero; rewrite Et; lra|].
    split; [reflexivity|]. rewrite Et. field. lra.
  - intros Hd. exact (littles_law_PWC rb t0 nm pl w Hv Hd).
  - intros H1. apply (littles_law_PWC rb t0 nm pl w Hv).
    pose proof (valid_line_divisor rb t0 nm pl w Hv H1). lra.
Qed.

Lemma littles_law_regimes_witness :
  littles_law (TH_best example_line 3) (CT_best example_line 3) 3 /\
  littles_law (TH_worst example_line) (CT_worst example_line 3) 3 /\
  (~ W_0 example_line + 3 - 1 == 0 ->
   littles_law (TH_PWC example_line 3) (CT_PWC example_line 3) 3) /\
  (1 <= 3 -> littles_law (TH_PWC example_line 3) (CT_PWC example_line 3) 3).
Proof.
  apply (littles_law_regimes (1 # 2) 10 None example_line 3).
  - repeat split; reflexivity.
  - reflexivity.
Defined.

(** ** Totality *)

(** C7, as the specification states it, fails: on the valid line
    r_b = 0.5, T_0 = 1 and at the positive WIP level w = 0.5 the divisor
    W_0 + w - 1 of TH_PWC is zero and the evaluation is not defined. *)
Lemma totality_counterexample :
  valid_line (1 # 2) 1 None half_line /\ 0 < 1 # 2 /\
  W_0 half_line + (1 # 2) - 1 == 0 /\
  ~ defined (TH_PWC half_line (1 # 2)).
Proof.
  split; [exact valid_half_line|].
  split; [reflexivity|].
  split; [reflexivity|].
  simpl. intros H. exact H.
Qed.

(** C7, amended: for a line with r_b > 0 and T_0 > 0 and every positive w,
    CT_best, TH_best, CT_worst, TH_worst and CT_PWC are defined (no division
    by zero; every rational is finite), and TH_PWC is defined exactly when
    its divisor W_0 + w - 1 is nonzero, which is the case for every
    w >= 1. *)
Theorem totality (rb t0 : Q) (nm : option string)
    (pl : ProductionLine) (w : Q) :
  valid_line rb t0 nm pl -> 0 < w ->
  defined (CT_best pl w) /\
  defined (TH_best pl w) /\
  defined (CT_worst pl w) /\
  defined (TH_worst pl) /\
  defined (CT_PWC pl w) /\
  (defined (TH_PWC pl w) <-> ~ W_0 pl + w - 1 == 0) /\
  (1 <= w -> defined (TH_PWC pl w)).
Proof.
  intros Hv Hw. pose proof Hv as Hv'. line_fields Hv'.
  assert (Hr : ~ r_b pl == 0) by (rewrite Er; lra).
  assert (Ht : ~ T_0 pl == 0) by (rewrite Et; lra).
  destruct (TH_PWC_cases pl w) as [Hnz Hz].
  assert (Hiff : defined (TH_PWC pl w) <-> ~ W_0 pl + w - 1 == 0).
  { split.
    - intros Hd Hzero. rewrite (Hz Hzero) in Hd. exact Hd.
    - intros Hd. rewrite (Hnz Hd). exact I. }
  repeat split.
  - unfold CT_best. destruct (Qle_bool w (W_0 pl)); [exact I|].
    now rewrite truediv_nonzero.
  - unfold TH_best. destruct (Qle_bool w (W_0 pl)); [|exact I].
    now rewrite truediv_nonzero.
  - unfold TH_worst. now rewrite truediv_nonzero.
  - unfold CT_PWC. now rewrite truediv_nonzero.
  - apply Hiff.
  - apply Hiff.
  - intros H1. apply Hiff.
    pose proof (valid_line_divisor rb t0 nm pl w Hv H1). lra.
Qed.

Lemma totality_witness :
  defined (CT_best example_line 3) /\
  defined (TH_best example_line 3) /\
  defined (CT_worst example_line 3) /\
  defined (TH_worst example_line) /\
  defined (CT_PWC example_line 3) /\
  (defined (TH_PWC example_line 3) <-> ~ W_0 example_line + 3 - 1 == 0) /\
  (1 <= 3 -> defined (TH_PWC example_line 3)).
Proof.
  apply (totality (1 # 2) 10 None example_line 3).
  - repeat split; reflexivity.
  - reflexivity.
Defined.

(** ** Continuity of the best case at the critical WIP *)

Lemma CT_best_by_branch (pl : ProductionLine) (w : Q) :
  CT_best pl w =
  if Qle_bool w (W_0 pl) then CT_best_below pl w else CT_best_above pl w.
Proof. reflexivity. Qed.

Lemma TH_best_by_branch (pl : ProductionLine) (w : Q) :
  TH_best pl w =
  if Qle_bool w (W_0 pl) then TH_best_below pl w else TH_best_above pl w.
Proof. reflexivity. Qed.

(** C8: for a line with r_b > 0 and T_0 > 0, CT_best and TH_best choose
    between their two branches by the test w <= W_0, and at w = W_0 the two
    branches of CT_best agree (both give T_0 = W_0 / r_b) and the two branches of
    TH_best agree (both give r_b = W_0 / T_0); CT_best and TH_best take
    these values there. *)
Theorem best_case_continuity (rb t0 : Q) (nm : option string)
    (pl : ProductionLine) (w : Q) :
  valid_line rb t0 nm pl -> w == W_0 pl ->
  (forall x : Q,
     CT_best pl x =
       (if Qle_bool x (W_0 pl) then CT_best_below pl x
        else CT_best_above pl x) /\
     TH_best pl x =
       (if Qle_bool x (W_0 pl) then TH_best_below pl x
        else TH_best_above pl x)) /\
  (CT_best_below pl w = Ok t0 /\ CT_best_above pl w = Ok (w / rb) /\
   t0 == w / rb) /\
  (TH_best_below pl w = Ok (w / t0) /\ TH_best_above pl w = Ok rb /\
   w / t0 == rb) /\
  returns (CT_best pl w) t0 /\ returns (TH_best pl w) rb.
Proof.
  intros Hv Hw.
  split; [intros x; split;
          [apply CT_best_by_branch|apply TH_best_by_branch]|].
  line_fields Hv. rewrite Ew in Hw.
  assert (Hct : t0 == w / rb) by (rewrite Hw; field; lra).
  assert (Hth : w / t0 == rb) by (rewrite Hw; field; lra).
  unfold CT_best_below, CT_best_above, TH_best_below, TH_best_above.
  rewrite Er, Et.
  rewrite !truediv_nonzero by lra.
  repeat split; try assumption.
  - unfold CT_best. rewrite Er, Et.
    destruct (Qle_bool w (W_0 pl)); [reflexivity|].
    rewrite truediv_nonzero by lra. simpl. symmetry. assumption.
  - unfold TH_best. rewrite Er, Et.
    destruct (Qle_bool w (W_0 pl)); [|reflexivity].
    rewrite truediv_nonzero by lra. assumption.
Qed.

Lemma best_case_continuity_witness :
  (forall x : Q,
     CT_best example_line x =
       (if Qle_bool x (W_0 example_line) then CT_best_below example_line x
        else CT_best_above example_line x) /\
     TH_best example_line x =
       (if Qle_bool x (W_0 example_line) then TH_best_below example_line x
        else TH_best_above example_line x)) /\
  (CT_best_below example_line 5 = Ok 10 /\
   CT_best_above example_line 5 = Ok (5 / (1 # 2)) /\
   10 == 5 / (1 # 2)) /\
  (TH_best_below example_line 5 = Ok (5 / 10) /\
   TH_best_above example_line 5 = Ok (1 # 2) /\
   5 / 10 == 1 # 2) /\
  returns (CT_best example_line 5) 10 /\
  returns (TH_best example_line 5) (1 # 2).
Proof.
  apply (best_case_continuity (1 # 2) 10 None example_line 5).
  - repeat split; reflexivity.
  - reflexivity.
Defined.

(** ** Monotonicity *)

Lemma TH_best_le_rb (rb t0 : Q) (nm : option string)
    (pl : ProductionLine) (w : Q) :
  valid_line rb t0 nm pl ->
  exists a : Q, TH_best pl w = Ok a /\ a <= rb /\
    (Qle_bool w (W_0 pl) = true -> a = w / t0) /\
    (Qle_bool w (W_0 pl) = false -> a = rb).
Proof.
  intros Hv. line_fields Hv. unfold TH_best.
  destruct (Qle_bool w (W_0 pl)) eqn:E.
  - exists (w / t0). rewrite Et, truediv_nonzero by lra.
    split; [reflexivity|]. split.
    + apply Qle_bool_iff in E. rewrite Ew in E.
      apply Qle_shift_div_r; assumption.
    + split; [reflexivity|discriminate].
  - exists rb. rewrite Er. split; [reflexivity|].
    split; [lra|]. split; [discriminate|reflexivity].
Qed.

(** C9: for a fixed line with r_b > 0 and T_0 > 0, CT_worst and CT_PWC are
    strictly increasing in w over w > 0, and TH_best is non-decreasing in w
    and bounded above by r_b over w > 0. *)
Theorem monotonicity (rb t0 : Q) (nm : option string)
    (pl : ProductionLine) (w1 w2 : Q) :
  valid_line rb t0 nm pl -> 0 < w1 -> 0 < w2 ->
  (w1 < w2 -> lt_results (CT_worst pl w1) (CT_worst pl w2)) /\
  (w1 < w2 -> lt_results (CT_PWC pl w1) (CT_PWC pl w2)) /\
  (w1 <= w2 -> le_results (TH_best pl w1) (TH_best pl w2)) /\
  le_results (TH_best pl w1) (Ok rb).
Proof.
  intros Hv H1 H2. pose proof Hv as Hv'. line_fields Hv'.
  assert (Hir : 0 < / rb) by (apply Qinv_lt_0_compat; assumption).
  assert (Hit : 0 < / t0) by (apply Qinv_lt_0_compat; assumption).
  repeat split.
  - intros Hlt. exists (w1 * T_0 pl), (w2 * T_0 pl).
    split; [reflexivity|]. split; [reflexivity|].
    rewrite Et. apply Qmult_lt_compat_r; assumption.
  - intros Hlt. unfold CT_PWC. rewrite Er, Et.
    rewrite !truediv_nonzero by lra. simpl.
    exists (t0 + (w1 - 1) / rb), (t0 + (w2 - 1) / rb).
    split; [reflexivity|]. split; [reflexivity|].
    assert ((w1 - 1) / rb < (w2 - 1) / rb).
    { unfold Qdiv. apply Qmult_lt_compat_r; [assumption|lra]. }
    lra.
  - intros Hle.
    destruct (TH_best_le_rb rb t0 nm pl w1 Hv) as (a & Ea & Ha & Hab & Haa).
    destruct (TH_best_le_rb rb t0 nm pl w2 Hv) as (b & Eb & Hb & Hbb & Hba).
    exists a, b. split; [assumption|]. split; [assumption|].
    destruct (Qle_bool w2 (W_0 pl)) eqn:E2.
    + assert (E1 : Qle_bool w1 (W_0 pl) = true).
      { apply Qle_bool_iff. apply Qle_bool_iff in E2. lra. }
      rewrite (Hab E1), (Hbb eq_refl). unfold Qdiv.
      apply Qmult_le_compat_r; [assumption|lra].
    + rewrite (Hba eq_refl). assumption.
  - destruct (TH_best_le_rb rb t0 nm pl w1 Hv) as (a & Ea & Ha & _).
    exists a, rb. split; [assumption|]. split; [reflexivity|assumption].
Qed.

Lemma monotonicity_witness :
  (3 < 8 -> lt_results (CT_worst example_line 3) (CT_worst example_line 8)) /\
  (3 < 8 -> lt_results (CT_PWC example_line 3) (CT_PWC example_line 8)) /\
  (3 <= 8 -> le_results (TH_best example_line 3) (TH_best example_line 8)) /\
  le_results (TH_best example_line 3) (Ok (1 # 2)).
Proof.
  apply (monotonicity (1 # 2) 10 None example_line 3 8).
  - repeat split; reflexivity.
  - reflexivity.
  - reflexivity.
Defined.

(** ** The regimes at WIP level 1 *)

(** C10: for a line with r_b > 0 and T_0 > 0, at WIP level 1 the practical
    worst case meets the other regimes: TH_PWC(1) = 1 / T_0 = TH_worst(),
    and CT_PWC(1) = T_0. *)
Theorem regimes_meet_at_one (rb t0 : Q) (nm : option string)
    (pl : ProductionLine) :
  valid_line rb t0 nm pl ->
  TH_worst pl = Ok (1 / t0) /\
  returns (TH_PWC pl 1) (1 / t0) /\
  returns (CT_PWC pl 1) t0.
Proof.
  intros Hv. line_fields Hv.
  assert (Hp : 0 < rb * t0) by (apply Qmult_lt_0_compat; assumption).
  split; [unfold TH_worst; rewrite Et; apply truediv_nonzero; lra|].
  split.
  - unfold TH_PWC. rewrite Er, Ew.
    rewrite truediv_nonzero by lra. simpl. field. split; lra.
  - unfold CT_PWC. rewrite Er, Et.
    rewrite truediv_nonzero by lra. simpl. field. lra.
Qed.

Lemma regimes_meet_at_one_witness :
  TH_worst example_line = Ok (1 / 10) /\
  returns (TH_PWC example_line 1) (1 / 10) /\
  returns (CT_PWC example_line 1) 10.
Proof.
  apply (regimes_meet_at_one (1 # 2) 10 None example_line).
  repeat split; reflexivity.
Defined.

(** ** Construction *)

(** C5, as the specification states it, fails: [__init__] validates nothing.
    Construction with r_b = 0 and T_0 = 0, and with the negative rate
    r_b = -1, returns a line and raises no InvalidParameterError. *)
Lemma construction_counterexample :
  0 <= 0 /\ -1 <= 0 /\
  init 0 0 None = Ok {| r_b := 0; T_0 := 0; W_0 := 0 * 0; _name := None |} /\
  init (-1) 10 None =
    Ok {| r_b := -1; T_0 := 10; W_0 := -1 * 10; _name := None |} /\
  ~ raises (init 0 0 None) InvalidParameterError /\
  ~ raises (init (-1) 10 None) InvalidParameterError.
Proof.
  split; [discriminate|]. split; [discriminate|].
  split; [reflexivity|]. split; [reflexivity|].
  split; intros H; exact H.
Qed.

(** C5, amended: constructing a ProductionLine validates nothing and never
    raises; for every r_b and T_0 (positive, zero or negative) and every
    name it succeeds and stores r_b, T_0, the name and W_0 = r_b * T_0. *)
Theorem construction (rb t0 : Q) (nm : option string) :
  exists pl : ProductionLine,
    init rb t0 nm = Ok pl /\
    r_b pl = rb /\ T_0 pl = t0 /\ W_0 pl = rb * t0 /\ name pl = nm /\
    forall e : exn, ~ raises (init rb t0 nm) e.
Proof.
  exists {| r_b := rb; T_0 := t0; W_0 := rb * t0; _name := nm |}.
  repeat split. intros e H. exact H.
Qed.

(** ** Calls outside the domain of the specification *)

Lemma arange_empty (start stop : Z) : (stop <= start)%Z -> arange start stop = [].
Proof.
  intros H. unfold arange.
  replace (Z.to_nat (stop - start)) with 0%nat by lia. reflexivity.
Qed.

Lemma df_scenarios_empty (pl : ProductionLine) (max_wip : Z) :
  ~ T_0 pl == 0 -> (max_wip < 1)%Z -> df_scenarios pl max_wip = Ok empty_frame.
Proof.
  intros Ht Hm. unfold df_scenarios.
  rewrite arange_empty by lia.
  unfold TH_worst. rewrite (truediv_nonzero _ _ Ht). reflexivity.
Qed.

(** C6, as the specification states it, fails: no operation checks its
    argument.  On the line r_b = 0.5, T_0 = 10 the calls with w = -1 return
    numbers, and [df_scenarios] with max_wip = 0 and max_wip = -3 returns
    the table without rows; none raises InvalidParameterError. *)
Lemma domain_checks_counterexample :
  valid_line (1 # 2) 10 None example_line /\ -1 <= 0 /\
  CT_best example_line (-1) = Ok 10 /\
  returns (TH_best example_line (-1)) (-1 # 10) /\
  returns (CT_worst example_line (-1)) (-10) /\
  returns (CT_PWC example_line (-1)) 6 /\
  returns (TH_PWC example_line (-1)) (-1 # 6) /\
  df_scenarios example_line 0 = Ok empty_frame /\
  df_scenarios example_line (-3) = Ok empty_frame /\
  ~ raises (CT_best example_line (-1)) InvalidParameterError /\
  ~ raises (TH_best example_line (-1)) InvalidParameterError /\
  ~ raises (CT_worst example_line (-1)) InvalidParameterError /\
  ~ raises (CT_PWC example_line (-1)) InvalidParameterError /\
  ~ raises (TH_PWC example_line (-1)) InvalidParameterError /\
  ~ raises (df_scenarios example_line 0) InvalidParameterError /\
  ~ raises (df_scenarios example_line (-3)) InvalidParameterError.
Proof.
  split; [exact valid_example_line|].
  split; [discriminate|].
  repeat split; try (vm_compute; reflexivity);
    vm_compute; intros H; exact H.
Qed.

(** C6, amended: no operation checks its argument and none raises
    InvalidParameterError.  For a line with r_b > 0 and T_0 > 0 and every
    w <= 0: CT_best(w) returns T_0, TH_best(w) returns w / T_0, CT_worst(w)
    returns w * T_0, CT_PWC(w) returns T_0 + (w - 1) / r_b, and TH_PWC(w)
    returns (w / (W_0 + w - 1)) * r_b when W_0 + w - 1 is nonzero and raises
    ZeroDivisionError when it is zero; df_scenarios with max_wip < 1 returns
    the table with no row. *)
Theorem domain_checks (rb t0 : Q) (nm : option string)
    (pl : ProductionLine) (w : Q) (max_wip : Z) :
  valid_line rb t0 nm pl -> w <= 0 -> (max_wip < 1)%Z ->
  CT_best pl w = Ok t0 /\
  TH_best pl w = Ok (w / t0) /\
  CT_worst pl w = Ok (w * t0) /\
  CT_PWC pl w = Ok (t0 + (w - 1) / rb) /\
  (~ W_0 pl + w - 1 == 0 -> TH_PWC pl w = Ok (w / (W_0 pl + w - 1) * rb)) /\
  (W_0 pl + w - 1 == 0 -> TH_PWC pl w = Raise ZeroDivisionError) /\
  ~ raises (TH_PWC pl w) InvalidParameterError /\
  df_scenarios pl max_wip = Ok empty_frame.
Proof.
  intros Hv Hw Hm. line_fields Hv.
  assert (Hp : 0 < rb * t0) by (apply Qmult_lt_0_compat; assumption).
  assert (Hle : Qle_bool w (W_0 pl) = true).
  { apply Qle_bool_iff. rewrite Ew. lra. }
  destruct (TH_PWC_cases pl w) as [Hnz Hz]. rewrite Er in Hnz.
  split; [unfold CT_best; rewrite Hle, Et; reflexivity|].
  split; [unfold TH_best; rewrite Hle, Et; apply truediv_nonzero; lra|].
  split; [unfold CT_worst; rewrite Et; reflexivity|].
  split.
  { unfold CT_PWC. rewrite Er, Et.
    rewrite truediv_nonzero by lra. reflexivity. }
  split; [assumption|]. split; [assumption|].
  split.
  { destruct (Qeq_dec (W_0 pl + w - 1) 0) as [E|E].
    - rewrite (Hz E). simpl. discriminate.
    - rewrite (Hnz E). simpl. tauto. }
  apply df_scenarios_empty; [rewrite Et; lra|assumption].
Qed.

Lemma domain_checks_witness :
  CT_best example_line (-1) = Ok 10 /\
  TH_best example_line (-1) = Ok (-1 / 10) /\
  CT_worst example_line (-1) = Ok (-1 * 10) /\
  CT_PWC example_line (-1) = Ok (10 + (-1 - 1) / (1 # 2)) /\
  (~ W_0 example_line + -1 - 1 == 0 ->
   TH_PWC example_line (-1) =
     Ok (-1 / (W_0 example_line + -1 - 1) * (1 # 2))) /\
  (W_0 example_line + -1 - 1 == 0 ->
   TH_PWC example_line (-1) = Raise ZeroDivisionError) /\
  ~ raises (TH_PWC example_line (-1)) InvalidParameterError /\
  df_scenarios example_line 0 = Ok empty_frame.
Proof.
  apply (domain_checks (1 # 2) 10 None example_line (-1) 0).
  - repeat split; reflexivity.
  - discriminate.
  - reflexivity.
Defined.

(** ** The table of scenarios *)

Lemma length_arange (start stop : Z) :
  List.length (arange start stop) = Z.to_nat (stop - start).
Proof. unfold arange. now rewrite length_map, length_seq. Qed.

Lemma nth_error_arange (start stop : Z) (i : nat) :
  (i < Z.to_nat (stop - start))%nat ->
  nth_error (arange start stop) i = Some (start + Z.of_nat i)%Z.
Proof.
  intros Hi. unfold arange. rewrite nth_error_map, nth_error_seq.
  apply Nat.ltb_lt in Hi. rewrite Hi. reflexivity.
Qed.

Lemma arange_sorted (start stop : Z) : StronglySorted Z.lt (arange start stop).
Proof.
  unfold arange. generalize (Z.to_nat (stop - start)) as n.
  generalize 0%nat as k. intros k n. revert k.
  induction n as [|n IH]; intros k; simpl; constructor.
  - apply IH.
  - apply Forall_forall. intros z Hz.
    apply in_map_iff in Hz as (j & <- & Hj). apply in_seq in Hj. lia.
Qed.

(** [apply] succeeds when every call does, and then holds the results of
    the calls position by position. *)
Lemma apply_defined (f : Q -> result Q) (s : list Q) :
  (forall x : Q, In x s -> defined (f x)) ->
  exists ys : list Q,
    apply f s = Ok ys /\
    List.length ys = List.length s /\
    forall (i : nat) (x : Q), nth_error s i = Some x ->
      exists y : Q, nth_error ys i = Some y /\ f x = Ok y.
Proof.
  induction s as [|x s IH]; intros Hf.
  - exists []. repeat split. intros [|i] x H; discriminate H.
  - destruct IH as (ys & Hys & Hlen & Hnth).
    { intros z Hz. apply Hf. now right. }
    pose proof (Hf x (or_introl eq_refl)) as Hx.
    destruct (f x) as [y|e] eqn:Ey; [|contradiction].
    exists (y :: ys). simpl. rewrite Ey, Hys. simpl.
    split; [reflexivity|]. split; [now rewrite Hlen|].
    intros [|i] z Hz; simpl in *.
    + injection Hz as <-. exists y. split; [reflexivity|assumption].
    + apply Hnth. assumption.
Qed.

(** The WIP levels of the table are at least 1. *)
Lemma WIP_levels_ge_1 (max_wip : Z) (x : Q) :
  In x (map inject_Z (arange 1 (max_wip + 1))) -> 1 <= x.
Proof.
  intros H. apply in_map_iff in H as (z & <- & Hz).
  unfold arange in Hz. apply in_map_iff in Hz as (j & <- & _).
  rewrite <- (Zle_Qle 1). lia.
Qed.

(** The frame [df_scenarios] returns, given the six columns. *)
Lemma df_scenarios_columns (pl : ProductionLine) (max_wip : Z)
    (th_worst : Q) (th_best th_pwc ct_best ct_worst ct_pwc : list Q) :
  let idx := arange 1 (max_wip + 1) in
  let wip := map inject_Z idx in
  apply (TH_best pl) wip = Ok th_best ->
  TH_worst pl = Ok th_worst ->
  apply (TH_PWC pl) wip = Ok th_pwc ->
  apply (CT_best pl) wip = Ok ct_best ->
  apply (CT_worst pl) wip = Ok ct_worst ->
  apply (CT_PWC pl) wip = Ok ct_pwc ->
  df_scenarios pl max_wip =
  Ok {| index := idx;
        columns :=
          [("WIP"%string, wip); ("TH Best Case"%string, th_best);
           ("TH Worst Case"%string, repeat th_worst (List.length idx));
           ("TH Practical Worst Case"%string, th_pwc);
           ("CT Best Case"%string, ct_best);
           ("CT Worst Case"%string, ct_worst);
           ("CT Practical Worst Case"%string, ct_pwc)] |}.
Proof.
  intros idx wip H1 H2 H3 H4 H5 H6. unfold df_scenarios.
  fold idx. cbn [DataFrame_new setitem setitem_scalar getitem index columns
                 assign lookup String.eqb Ascii.eqb Bool.eqb bind].
  fold wip. rewrite H1. cbn [bind]. rewrite H2.
  cbn [DataFrame_new setitem setitem_scalar getitem index columns
       assign lookup String.eqb Ascii.eqb Bool.eqb bind].
  rewrite H3.
  cbn [DataFrame_new setitem setitem_scalar getitem index columns
       assign lookup String.eqb Ascii.eqb Bool.eqb bind].
  rewrite H4.
  cbn [DataFrame_new setitem setitem_scalar getitem index columns
       assign lookup String.eqb Ascii.eqb Bool.eqb bind].
  rewrite H5.
  cbn [DataFrame_new setitem setitem_scalar getitem index columns
       assign lookup String.eqb Ascii.eqb Bool.eqb bind].
  rewrite H6. reflexivity.
Qed.

(** C3: for a line with r_b > 0 and T_0 > 0 and every integer
    max_wip >= 1, df_scenarios returns a table of exactly max_wip rows; its
    index and its WIP column are the strictly ascending contiguous sequence
    1, 2, ..., max_wip; every column has one cell per row; each row holds
    the six evaluations at its WIP level; and the worst-case-throughput
    column holds 1 / T_0 in every row. *)
Theorem df_scenarios_rows (rb t0 : Q) (nm : option string)
    (pl : ProductionLine) (max_wip : Z) :
  valid_line rb t0 nm pl -> (1 <= max_wip)%Z ->
  exists df : DataFrame,
    df_scenarios pl max_wip = Ok df /\
    nrows df = Z.to_nat max_wip /\
    map fst (columns df) = scenario_columns /\
    (forall (k : string) (s : list Q),
       In (k, s) (columns df) -> List.length s = nrows df) /\
    StronglySorted Z.lt (index df) /\
    forall i : nat, (i < Z.to_nat max_wip)%nat ->
      nth_error (index df) i = Some (Z.of_nat i + 1)%Z /\
      row_holds pl df i (inject_Z (Z.of_nat i + 1)) /\
      cell df "TH Worst Case" i = Some (1 / t0).
Proof.
  intros Hv Hm.
  set (idx := arange 1 (max_wip + 1)).
  set (wip := map inject_Z idx).
  assert (Hlen : List.length idx = Z.to_nat max_wip).
  { unfold idx. rewrite length_arange. f_equal. lia. }
  assert (Hwl : List.length wip = Z.to_nat max_wip).
  { unfold wip. now rewrite length_map. }
  assert (Hpos : forall x : Q, In x wip -> 0 < x).
  { intros x Hx. apply WIP_levels_ge_1 in Hx. lra. }
  assert (Htot : forall x : Q, In x wip ->
            defined (TH_best pl x) /\ defined (TH_PWC pl x) /\
            defined (CT_best pl x) /\ defined (CT_worst pl x) /\
            defined (CT_PWC pl x)).
  { intros x Hx. pose proof (Hpos x Hx) as H0.
    pose proof (WIP_levels_ge_1 _ _ Hx) as H1.
    pose proof Hv as Hv'. line_fields Hv'.
    assert (Hr : ~ r_b pl == 0) by (rewrite Er; lra).
    assert (Ht : ~ T_0 pl == 0) by (rewrite Et; lra).
    pose proof (valid_line_divisor rb t0 nm pl x Hv H1) as Hd.
    assert (Hd' : ~ W_0 pl + x - 1 == 0) by lra.
    unfold TH_best, CT_best, CT_worst, CT_PWC, TH_PWC.
    rewrite (truediv_nonzero _ _ Hd'), (truediv_nonzero _ _ Hr).
    destruct (Qle_bool x (W_0 pl));
      rewrite ?(truediv_nonzero _ _ Ht), ?(truediv_nonzero _ _ Hr);
      repeat split. }
  destruct (apply_defined (TH_best pl) wip) as (a & Ea & La & Na);
    [intros x Hx; apply (Htot x Hx)|].
  destruct (apply_defined (TH_PWC pl) wip) as (c & Ec & Lc & Nc);
    [intros x Hx; apply (Htot x Hx)|].
  destruct (apply_defined (CT_best pl) wip) as (d & Ed & Ld & Nd);
    [intros x Hx; apply (Htot x Hx)|].
  destruct (apply_defined (CT_worst pl) wip) as (e & Ee & Le & Ne);
    [intros x Hx; apply (Htot x Hx)|].
  destruct (apply_defined (CT_PWC pl) wip) as (f & Ef & Lf & Nf);
    [intros x Hx; apply (Htot x Hx)|].
  assert (Eb : TH_worst pl = Ok (1 / t0)).
  { pose proof Hv as Hv'. line_fields Hv'.
    unfold TH_worst. rewrite Et. apply truediv_nonzero. lra. }
  eexists. split.
  { exact (df_scenarios_columns pl max_wip (1 / t0) a c d e f
             Ea Eb Ec Ed Ee Ef). }
  fold idx wip. unfold nrows. cbn [index columns].
  split; [assumption|]. split; [reflexivity|]. split.
  { intros k s Hin. rewrite Hlen. cbn [In] in Hin.
    repeat (destruct Hin as [Hin|Hin];
            [injection Hin as _ <-;
             rewrite ?repeat_length; congruence|]).
    contradiction. }
  split; [apply arange_sorted|].
  intros i Hi.
  assert (Hidx : nth_error idx i = Some (Z.of_nat i + 1)%Z).
  { unfold idx. rewrite nth_error_arange by lia. f_equal. lia. }
  assert (Hw : nth_error wip i = Some (inject_Z (Z.of_nat i + 1))).
  { unfold wip. rewrite nth_error_map, Hidx. reflexivity. }
  assert (Hb : nth_error (repeat (1 / t0) (List.length idx)) i
               = Some (1 / t0)).
  { apply nth_error_repeat. lia. }
  split; [assumption|]. split; [|exact Hb].
  unfold row_holds, cell.
  cbn [columns lookup String.eqb Ascii.eqb Bool.eqb].
  split; [assumption|].
  split; [exact (Na i _ Hw)|].
  split; [exists (1 / t0); split; assumption|].
  split; [exact (Nc i _ Hw)|].
  split; [exact (Nd i _ Hw)|].
  split; [exact (Ne i _ Hw)|exact (Nf i _ Hw)].
Qed.

Lemma df_scenarios_rows_witness :
  exists df : DataFrame,
    df_scenarios example_line 3 = Ok df /\
    nrows df = Z.to_nat 3 /\
    map fst (columns df) = scenario_columns /\
    (forall (k : string) (s : list Q),
       In (k, s) (columns df) -> List.length s = nrows df) /\
    StronglySorted Z.lt (index df) /\
    forall i : nat, (i < Z.to_nat 3)%nat ->
      nth_error (index df) i = Some (Z.of_nat i + 1)%Z /\
      row_holds example_line df i (inject_Z (Z.of_nat i + 1)) /\
      cell df "TH Worst Case" i = Some (1 / 10).
Proof.
  apply (df_scenarios_rows (1 # 2) 10 None example_line 3).
  - repeat split; reflexivity.
  - lia.
Defined.


(** * Further properties of the six evaluations *)

Lemma div_le_iff (a b c : Q) : 0 < c -> (a / c <= b <-> a <= b * c).
Proof.
  intros Hc.
  assert (E : a / c * c == a) by (field; lra).
  rewrite <- (Qmult_le_r (a / c) b c Hc). rewrite E. reflexivity.
Qed.

Lemma div_lt_iff (a b c : Q) : 0 < c -> (a / c < b <-> a < b * c).
Proof.
  intros Hc.
  assert (E : a / c * c == a) by (field; lra).
  rewrite <- (Qmult_lt_r (a / c) b c Hc). rewrite E. reflexivity.
Qed.

Lemma le_div_iff (a b c : Q) : 0 < c -> (a <= b / c <-> a * c <= b).
Proof.
  intros Hc.
  assert (E : b / c * c == b) by (field; lra).
  rewrite <- (Qmult_le_r a (b / c) c Hc). rewrite E. reflexivity.
Qed.

Lemma lt_div_iff (a b c : Q) : 0 < c -> (a < b / c <-> a * c < b).
Proof.
  intros Hc.
  assert (E : b / c * c == b) by (field; lra).
  rewrite <- (Qmult_lt_r a (b / c) c Hc). rewrite E. reflexivity.
Qed.

(** The value of [CT_best] on a valid line: one of the two branch values,
    and at least both. *)
Lemma CT_best_value (rb t0 : Q) (nm : option string)
    (pl : ProductionLine) (w : Q) :
  valid_line rb t0 nm pl ->
  exists v : Q, CT_best pl w = Ok v /\ t0 <= v /\ w / rb <= v /\
    (w <= rb * t0 -> v = t0) /\ (rb * t0 < w -> v = w / rb).
Proof.
  intros Hv. line_fields Hv. unfold CT_best. rewrite Ew, Er, Et.
  destruct (Qle_bool w (rb * t0)) eqn:E.
  - apply Qle_bool_iff in E. exists t0.
    split; [reflexivity|]. split; [lra|].
    split; [apply div_le_iff; [assumption|lra]|].
    split; [reflexivity|lra].
  - apply Qle_bool_false in E. exists (w / rb).
    rewrite truediv_nonzero by lra.
    split; [reflexivity|].
    split; [apply le_div_iff; [assumption|lra]|].
    split; [lra|]. split; [lra|reflexivity].
Qed.

(** The value of [TH_best] on a valid line: one of the two branch values,
    and at most both. *)
Lemma TH_best_value (rb t0 : Q) (nm : option string)
    (pl : ProductionLine) (w : Q) :
  valid_line rb t0 nm pl ->
  exists v : Q, TH_best pl w = Ok v /\ v <= rb /\ v <= w / t0 /\
    (w <= rb * t0 -> v = w / t0) /\ (rb * t0 < w -> v = rb).
Proof.
  intros Hv. line_fields Hv. unfold TH_best. rewrite Ew, Er, Et.
  destruct (Qle_bool w (rb * t0)) eqn:E.
  - apply Qle_bool_iff in E. exists (w / t0).
    rewrite truediv_nonzero by lra.
    split; [reflexivity|].
    split; [apply div_le_iff; assumption|].
    split; [lra|]. split; [reflexivity|lra].
  - apply Qle_bool_false in E. exists rb.
    split; [reflexivity|]. split; [lra|].
    split; [apply le_div_iff; [assumption|lra]|].
    split; [lra|reflexivity].
Qed.

(** X1: on a line with r_b > 0 and T_0 > 0, for every w (of any sign)
    CT_best(w) is the larger of T_0 and w / r_b, and TH_best(w) is the
    smaller of w / T_0 and r_b. *)
Theorem best_case_max_min (rb t0 : Q) (nm : option string)
    (pl : ProductionLine) (w : Q) :
  valid_line rb t0 nm pl ->
  returns (CT_best pl w) (Qmax t0 (w / rb)) /\
  returns (TH_best pl w) (Qmin (w / t0) rb).
Proof.
  intros Hv.
  destruct (CT_best_value rb t0 nm pl w Hv) as (c & Ec & Hc1 & Hc2 & Hc3 & Hc4).
  destruct (TH_best_value rb t0 nm pl w Hv) as (h & Eh & Hh1 & Hh2 & Hh3 & Hh4).
  rewrite Ec, Eh. unfold returns, Qmax, Qmin.
  destruct (Qlt_le_dec (rb * t0) w) as [Hlt|Hle].
  - rewrite (Hc4 Hlt), (Hh4 Hlt) in *. split.
    + destruct (Qle_bool t0 (w / rb)) eqn:E; [reflexivity|].
      apply Qle_bool_false in E. lra.
    + destruct (Qle_bool (w / t0) rb) eqn:E; [|reflexivity].
      apply Qle_bool_iff in E. lra.
  - rewrite (Hc3 Hle), (Hh3 Hle) in *. split.
    + destruct (Qle_bool t0 (w / rb)) eqn:E; [|reflexivity].
      apply Qle_bool_iff in E. lra.
    + destruct (Qle_bool (w / t0) rb) eqn:E; [reflexivity|].
      apply Qle_bool_false in E. lra.
Qed.

Lemma best_case_max_min_witness :
  returns (CT_best example_line 8) (Qmax 10 (8 / (1 # 2))) /\
  returns (TH_best example_line 8) (Qmin (8 / 10) (1 # 2)).
Proof.
  apply (best_case_max_min (1 # 2) 10 None example_line 8).
  repeat split; reflexivity.
Defined.

(** X2: on a line with r_b > 0 and T_0 > 0, CT_best is non-decreasing in w
    (for w of any sign) and never below T_0. *)
Theorem CT_best_monotone (rb t0 : Q) (nm : option string)
    (pl : ProductionLine) (w1 w2 : Q) :
  valid_line rb t0 nm pl -> w1 <= w2 ->
  le_results (CT_best pl w1) (CT_best pl w2) /\
  le_results (Ok t0) (CT_best pl w1).
Proof.
  intros Hv Hle.
  destruct (CT_best_value rb t0 nm pl w1 Hv) as (a & Ea & Ha1 & Ha2 & Ha3 & Ha4).
  destruct (CT_best_value rb t0 nm pl w2 Hv) as (b & Eb & Hb1 & Hb2 & Hb3 & Hb4).
  line_fields Hv.
  split.
  - exists a, b. split; [assumption|]. split; [assumption|].
    destruct (Qlt_le_dec (rb * t0) w1) as [Hlt|Hl1].
    + rewrite (Ha4 Hlt).
      assert (w1 / rb <= w2 / rb).
      { apply div_le_iff; [assumption|].
        assert (w2 / rb * rb == w2) by (field; lra). lra. }
      lra.
    + rewrite (Ha3 Hl1). assumption.
  - exists t0, a. split; [reflexivity|]. split; assumption.
Qed.

Lemma CT_best_monotone_witness :
  le_results (CT_best example_line 3) (CT_best example_line 8) /\
  le_results (Ok 10) (CT_best example_line 3).
Proof.
  apply (CT_best_monotone (1 # 2) 10 None example_line 3 8).
  - repeat split; reflexivity.
  - discriminate.
Defined.

Lemma CT_PWC_value (rb t0 : Q) (nm : option string)
    (pl : ProductionLine) (w : Q) :
  valid_line rb t0 nm pl -> CT_PWC pl w = Ok (t0 + (w - 1) / rb).
Proof.
  intros Hv. line_fields Hv. unfold CT_PWC. rewrite Er, Et.
  rewrite truediv_nonzero by lra. reflexivity.
Qed.

Lemma TH_PWC_value (rb t0 : Q) (nm : option string)
    (pl : ProductionLine) (w : Q) :
  valid_line rb t0 nm pl -> 0 < rb * t0 + w - 1 ->
  TH_PWC pl w = Ok (w / (rb * t0 + w - 1) * rb).
Proof.
  intros Hv Hd. line_fields Hv.
  destruct (TH_PWC_cases pl w) as [Hnz _].
  rewrite Ew, Er in Hnz. apply Hnz. lra.
Qed.

Lemma TH_worst_value (rb t0 : Q) (nm : option string) (pl : ProductionLine) :
  valid_line rb t0 nm pl -> TH_worst pl = Ok (1 / t0).
Proof.
  intros Hv. line_fields Hv. unfold TH_worst. rewrite Et.
  apply truediv_nonzero. lra.
Qed.

(** X3: on a line with r_b > 0, T_0 > 0 and critical WIP W_0 >= 1, at every
    WIP level w >= 1 the practical worst case lies between the other two
    regimes: CT_best(w) <= CT_PWC(w) <= CT_worst(w) and
    TH_worst() <= TH_PWC(w) <= TH_best(w) <= r_b. *)
Theorem regime_ordering (rb t0 : Q) (nm : option string)
    (pl : ProductionLine) (w : Q) :
  valid_line rb t0 nm pl -> 1 <= W_0 pl -> 1 <= w ->
  le_results (CT_best pl w) (CT_PWC pl w) /\
  le_results (CT_PWC pl w) (CT_worst pl w) /\
  le_results (TH_worst pl) (TH_PWC pl w) /\
  le_results (TH_PWC pl w) (TH_best pl w) /\
  le_results (TH_best pl w) (Ok rb).
Proof.
  intros Hv HW Hw.
  destruct (CT_best_value rb t0 nm pl w Hv) as (c & Ec & Hc1 & Hc2 & Hc3 & Hc4).
  destruct (TH_best_value rb t0 nm pl w Hv) as (h & Eh & Hh1 & Hh2 & Hh3 & Hh4).
  pose proof (CT_PWC_value rb t0 nm pl w Hv) as Ep.
  pose proof (TH_worst_value rb t0 nm pl Hv) as Ew'.
  pose proof Hv as Hv'. line_fields Hv'. rewrite Ew in HW.
  set (d := rb * t0 + w - 1).
  assert (Hd : 0 < d) by (unfold d; lra).
  pose proof (TH_PWC_value rb t0 nm pl w Hv Hd) as Eq. fold d in Eq.
  assert (Hprod : 0 <= (w - 1) * (rb * t0 - 1))
    by (apply Qmult_le_0_compat; lra).
  assert (Hq : 0 <= (w - 1) / rb) by (apply le_div_iff; [assumption|lra]).
  assert (Hinv : 1 / rb <= t0) by (apply div_le_iff; [assumption|lra]).
  assert (Hsplit : w / rb == (w - 1) / rb + 1 / rb) by (field; lra).
  assert (Hmul : w / d * rb == w * rb / d) by (field; lra).
  repeat split.
  - exists c, (t0 + (w - 1) / rb).
    split; [assumption|]. split; [assumption|].
    destruct (Qlt_le_dec (rb * t0) w) as [Hlt|Hle].
    + rewrite (Hc4 Hlt). lra.
    + rewrite (Hc3 Hle). lra.
  - exists (t0 + (w - 1) / rb), (w * t0).
    split; [assumption|]. split; [unfold CT_worst; now rewrite Et|].
    assert ((w - 1) / rb <= (w - 1) * t0).
    { apply div_le_iff; [assumption|]. lra. }
    lra.
  - exists (1 / t0), (w / d * rb).
    split; [assumption|]. split; [assumption|].
    rewrite Hmul. apply le_div_iff; [assumption|].
    assert (E : 1 / t0 * d == d / t0) by (field; lra).
    rewrite E. apply div_le_iff; [assumption|]. unfold d. lra.
  - exists (w / d * rb), h.
    split; [assumption|]. split; [assumption|].
    rewrite Hmul. apply div_le_iff; [assumption|].
    destruct (Qlt_le_dec (rb * t0) w) as [Hlt|Hle].
    + rewrite (Hh4 Hlt).
      assert (0 <= rb * (d - w)) by (apply Qmult_le_0_compat; unfold d; lra).
      lra.
    + rewrite (Hh3 Hle).
      assert (E : w / t0 * d == w * d / t0) by (field; lra).
      rewrite E. apply le_div_iff; [assumption|].
      assert (0 <= w * (w - 1)) by (apply Qmult_le_0_compat; lra).
      unfold d. lra.
  - exists h, rb. split; [assumption|]. split; [reflexivity|assumption].
Qed.

Lemma regime_ordering_witness :
  le_results (CT_best example_line 3) (CT_PWC example_line 3) /\
  le_results (CT_PWC example_line 3) (CT_worst example_line 3) /\
  le_results (TH_worst example_line) (TH_PWC example_line 3) /\
  le_results (TH_PWC example_line 3) (TH_best example_line 3) /\
  le_results (TH_best example_line 3) (Ok (1 # 2)).
Proof.
  apply (regime_ordering (1 # 2) 10 None example_line 3).
  - repeat split; reflexivity.
  - discriminate.
  - discriminate.
Defined.

(** X4: nothing makes the critical WIP at least 1.  On a line with
    r_b > 0, T_0 > 0 and W_0 < 1, at every WIP level w > 1 the practical
    worst case is strictly better than the best case:
    CT_PWC(w) < CT_best(w) and TH_best(w) < TH_PWC(w). *)
Theorem regime_inversion (rb t0 : Q) (nm : option string)
    (pl : ProductionLine) (w : Q) :
  valid_line rb t0 nm pl -> W_0 pl < 1 -> 1 < w ->
  lt_results (CT_PWC pl w) (CT_best pl w) /\
  lt_results (TH_best pl w) (TH_PWC pl w).
Proof.
  intros Hv HW Hw.
  destruct (CT_best_value rb t0 nm pl w Hv) as (c & Ec & _ & _ & _ & Hc4).
  destruct (TH_best_value rb t0 nm pl w Hv) as (h & Eh & _ & _ & _ & Hh4).
  pose proof (CT_PWC_value rb t0 nm pl w Hv) as Ep.
  pose proof Hv as Hv'. line_fields Hv'. rewrite Ew in HW.
  assert (Hp : 0 < rb * t0) by (apply Qmult_lt_0_compat; assumption).
  set (d := rb * t0 + w - 1).
  assert (Hd : 0 < d) by (unfold d; lra).
  pose proof (TH_PWC_value rb t0 nm pl w Hv Hd) as Eq. fold d in Eq.
  assert (Hlt : rb * t0 < w) by lra.
  rewrite (Hc4 Hlt) in Ec. rewrite (Hh4 Hlt) in Eh.
  split.
  - exists (t0 + (w - 1) / rb), (w / rb).
    split; [assumption|]. split; [assumption|].
    assert (Hsplit : w / rb == (w - 1) / rb + 1 / rb) by (field; lra).
    assert (Hinv : t0 < 1 / rb) by (apply lt_div_iff; [assumption|lra]).
    lra.
  - exists rb, (w / d * rb).
    split; [assumption|]. split; [assumption|].
    assert (Hmul : w / d * rb == w * rb / d) by (field; lra).
    rewrite Hmul. apply lt_div_iff; [assumption|].
    assert (0 < rb * (w - d)) by (apply Qmult_lt_0_compat; unfold d; lra).
    lra.
Qed.

Lemma regime_inversion_witness :
  lt_results (CT_PWC half_line 2) (CT_best half_line 2) /\
  lt_results (TH_best half_line 2) (TH_PWC half_line 2).
Proof.
  apply (regime_inversion (1 # 2) 1 None half_line 2).
  - repeat split; reflexivity.
  - reflexivity.
  - reflexivity.
Defined.

(** * Exceptions of the six evaluations *)

Lemma truediv_defined (n d : Q) : defined (truediv n d) <-> ~ d == 0.
Proof.
  split.
  - intros H E. rewrite (truediv_zero _ _ E) in H. exact H.
  - intros H. rewrite (truediv_nonzero _ _ H). exact I.
Qed.

Lemma truediv_only_zero_division (n d : Q) : only_zero_division (truediv n d).
Proof.
  unfold only_zero_division, truediv.
  destruct (Qeq_bool d 0); [right; reflexivity|left; exact I].
Qed.

Lemma Ok_only_zero_division (A : Type) (a : A) : only_zero_division (Ok a).
Proof. left. exact I. Qed.

Lemma bind_only_zero_division (A B : Type) (m : result A) (k : A -> result B) :
  only_zero_division m ->
  (forall a : A, only_zero_division (k a)) ->
  only_zero_division (bind m k).
Proof.
  intros [Hm|Hm] Hk.
  - destruct m as [a|e]; [apply Hk|contradiction].
  - rewrite Hm. right. reflexivity.
Qed.

Lemma methods_only_zero_division (pl : ProductionLine) (w : Q) :
  only_zero_division (CT_best pl w) /\
  only_zero_division (TH_best pl w) /\
  only_zero_division (CT_worst pl w) /\
  only_zero_division (TH_worst pl) /\
  only_zero_division (CT_PWC pl w) /\
  only_zero_division (TH_PWC pl w).
Proof.
  unfold CT_best, TH_best, CT_worst, TH_worst, CT_PWC, TH_PWC.
  repeat split.
  - destruct (Qle_bool w (W_0 pl));
      [apply Ok_only_zero_division|apply truediv_only_zero_division].
  - destruct (Qle_bool w (W_0 pl));
      [apply truediv_only_zero_division|apply Ok_only_zero_division].
  - apply Ok_only_zero_division.
  - apply truediv_only_zero_division.
  - apply bind_only_zero_division;
      [apply truediv_only_zero_division|intros; apply Ok_only_zero_division].
  - apply bind_only_zero_division;
      [apply truediv_only_zero_division|intros; apply Ok_only_zero_division].
Qed.

(** X5: on a line built by [__init__] from any r_b and T_0 (zero and
    negative included) and for every w, the only exception a formula raises
    is ZeroDivisionError, and it is raised exactly in these cases:
    CT_best when r_b = 0 and w > 0; TH_best when T_0 = 0 and w <= 0;
    TH_worst when T_0 = 0; CT_PWC when r_b = 0; TH_PWC when
    r_b * T_0 + w - 1 = 0; CT_worst never. *)
Theorem method_exceptions (rb t0 : Q) (nm : option string)
    (pl : ProductionLine) (w : Q) :
  init rb t0 nm = Ok pl ->
  (CT_best pl w = Raise ZeroDivisionError <-> rb == 0 /\ 0 < w) /\
  (TH_best pl w = Raise ZeroDivisionError <-> t0 == 0 /\ w <= 0) /\
  (TH_worst pl = Raise ZeroDivisionError <-> t0 == 0) /\
  (CT_PWC pl w = Raise ZeroDivisionError <-> rb == 0) /\
  (TH_PWC pl w = Raise ZeroDivisionError <-> rb * t0 + w - 1 == 0) /\
  defined (CT_worst pl w) /\
  only_zero_division (CT_best pl w) /\
  only_zero_division (TH_best pl w) /\
  only_zero_division (TH_worst pl) /\
  only_zero_division (CT_PWC pl w) /\
  only_zero_division (TH_PWC pl w).
Proof.
  intros Hi. apply init_fields in Hi as (Er & Et & Ew & _).
  assert (Hraise : forall n d : Q,
            truediv n d = Raise ZeroDivisionError <-> d == 0).
  { intros n d. split.
    - intros H. destruct (Qeq_dec d 0) as [E|E]; [assumption|].
      rewrite (truediv_nonzero _ _ E) in H. discriminate H.
    - apply truediv_zero. }
  destruct (methods_only_zero_division pl w) as (O1 & O2 & _ & O4 & O5 & O6).
  split; [|split; [|split; [|split; [|split; [|repeat split; assumption]]]]].
  - unfold CT_best. rewrite Ew, Er.
    destruct (Qle_bool w (rb * t0)) eqn:E.
    + apply Qle_bool_iff in E. split; [discriminate|].
      intros [H0 Hw]. rewrite H0 in E. lra.
    + apply Qle_bool_false in E. rewrite Hraise. split.
      * intros H0. split; [assumption|]. rewrite H0 in E. lra.
      * tauto.
  - unfold TH_best. rewrite Ew, Et.
    destruct (Qle_bool w (rb * t0)) eqn:E.
    + apply Qle_bool_iff in E. rewrite Hraise. split.
      * intros H0. split; [assumption|]. rewrite H0 in E. lra.
      * tauto.
    + apply Qle_bool_false in E. split; [discriminate|].
      intros [H0 Hw]. rewrite H0 in E. lra.
  - unfold TH_worst. rewrite Et. apply Hraise.
  - unfold CT_PWC. rewrite Er.
    destruct (Qeq_dec rb 0) as [E|E].
    + rewrite (truediv_zero _ _ E). simpl. tauto.
    + rewrite (truediv_nonzero _ _ E). simpl.
      split; [discriminate|contradiction].
  - unfold TH_PWC. rewrite Ew.
    destruct (Qeq_dec (rb * t0 + w - 1) 0) as [E|E].
    + rewrite (truediv_zero _ _ E). simpl. tauto.
    + rewrite (truediv_nonzero _ _ E). simpl.
      split; [discriminate|contradiction].
Qed.

Lemma method_exceptions_witness :
  (CT_best half_line 3 = Raise ZeroDivisionError <-> 1 # 2 == 0 /\ 0 < 3) /\
  (TH_best half_line 3 = Raise ZeroDivisionError <-> 1 == 0 /\ 3 <= 0) /\
  (TH_worst half_line = Raise ZeroDivisionError <-> 1 == 0) /\
  (CT_PWC half_line 3 = Raise ZeroDivisionError <-> 1 # 2 == 0) /\
  (TH_PWC half_line 3 = Raise ZeroDivisionError <->
   (1 # 2) * 1 + 3 - 1 == 0) /\
  defined (CT_worst half_line 3) /\
  only_zero_division (CT_best half_line 3) /\
  only_zero_division (TH_best half_line 3) /\
  only_zero_division (TH_worst half_line) /\
  only_zero_division (CT_PWC half_line 3) /\
  only_zero_division (TH_PWC half_line 3).
Proof.
  apply (method_exceptions (1 # 2) 1 None half_line 3).
  reflexivity.
Defined.

(** * Further properties of the table of scenarios *)

(** [df_scenarios] as its six computations in sequence. *)
Lemma df_scenarios_stages (pl : ProductionLine) (max_wip : Z) :
  let idx := arange 1 (max_wip + 1) in
  let wip := map inject_Z idx in
  df_scenarios pl max_wip =
  (th_best <- apply (TH_best pl) wip ;;
   th_worst <- TH_worst pl ;;
   th_pwc <- apply (TH_PWC pl) wip ;;
   ct_best <- apply (CT_best pl) wip ;;
   ct_worst <- apply (CT_worst pl) wip ;;
   ct_pwc <- apply (CT_PWC pl) wip ;;
   Ok (scenario_frame idx th_best th_worst th_pwc ct_best ct_worst ct_pwc)).
Proof.
  intros idx wip. unfold df_scenarios. fold idx.
  cbn [DataFrame_new setitem setitem_scalar getitem index columns
       assign lookup String.eqb Ascii.eqb Bool.eqb bind].
  fold wip.
  destruct (apply (TH_best pl) wip) as [a|]; cbn [bind]; [|reflexivity].
  destruct (TH_worst pl) as [b|]; cbn [bind]; [|reflexivity].
  cbn [DataFrame_new setitem setitem_scalar getitem index columns
       assign lookup String.eqb Ascii.eqb Bool.eqb bind].
  destruct (apply (TH_PWC pl) wip) as [c|]; cbn [bind]; [|reflexivity].
  cbn [DataFrame_new setitem setitem_scalar getitem index columns
       assign lookup String.eqb Ascii.eqb Bool.eqb bind].
  destruct (apply (CT_best pl) wip) as [d|]; cbn [bind]; [|reflexivity].
  cbn [DataFrame_new setitem setitem_scalar getitem index columns
       assign lookup String.eqb Ascii.eqb Bool.eqb bind].
  destruct (apply (CT_worst pl) wip) as [e|]; cbn [bind]; [|reflexivity].
  cbn [DataFrame_new setitem setitem_scalar getitem index columns
       assign lookup String.eqb Ascii.eqb Bool.eqb bind].
  destruct (apply (CT_PWC pl) wip) as [f|]; cbn [bind]; reflexivity.
Qed.

Lemma apply_only_zero_division (f : Q -> result Q) (s : list Q) :
  (forall x : Q, only_zero_division (f x)) -> only_zero_division (apply f s).
Proof.
  intros Hf. induction s as [|x s IH]; simpl.
  - apply Ok_only_zero_division.
  - apply bind_only_zero_division; [apply Hf|]. intros y.
    apply bind_only_zero_division; [apply IH|].
    intros ys. apply Ok_only_zero_division.
Qed.

(** [apply] returns exactly when every call returns. *)
Lemma apply_defined_iff (f : Q -> result Q) (s : list Q) :
  defined (apply f s) <-> forall x : Q, In x s -> defined (f x).
Proof.
  split.
  - induction s as [|x s IH]; intros Hd z Hz; [contradiction|].
    simpl in Hd. destruct (f x) as [y|] eqn:Ey; [|contradiction].
    simpl in Hd. destruct (apply f s) as [ys|] eqn:Eys; [|contradiction].
    destruct Hz as [<-|Hz]; [rewrite Ey; exact I|].
    apply IH; [exact I|assumption].
  - intros Hf. destruct (apply_defined f s Hf) as (ys & E & _).
    rewrite E. exact I.
Qed.

(** The results of a successful [apply], position by position. *)
Lemma apply_Ok_nth (f : Q -> result Q) (s ys : list Q) :
  apply f s = Ok ys ->
  List.length ys = List.length s /\
  forall (i : nat) (x : Q), nth_error s i = Some x ->
    exists y : Q, nth_error ys i = Some y /\ f x = Ok y.
Proof.
  intros E.
  assert (Hd : defined (apply f s)) by (rewrite E; exact I).
  destruct (apply_defined f s (proj1 (apply_defined_iff f s) Hd))
    as (ys' & E' & Hlen & Hnth).
  rewrite E in E'. injection E' as <-. split; assumption.
Qed.

(** X6: whatever the line and whatever max_wip, df_scenarios either returns
    a table or raises ZeroDivisionError; it raises no KeyError (every column
    it reads exists when it is read) and no other exception. *)
Theorem df_scenarios_only_zero_division (pl : ProductionLine) (max_wip : Z) :
  (exists df : DataFrame, df_scenarios pl max_wip = Ok df) \/
  df_scenarios pl max_wip = Raise ZeroDivisionError.
Proof.
  assert (H : only_zero_division (df_scenarios pl max_wip)).
  { rewrite df_scenarios_stages.
    pose proof (fun w => methods_only_zero_division pl w) as Hm.
    repeat (apply bind_only_zero_division;
            [first [apply apply_only_zero_division; intros w; apply Hm
                   |apply (Hm 0)]
            |intros ?]).
    apply Ok_only_zero_division. }
  destruct H as [H|H]; [left|right; assumption].
  destruct (df_scenarios pl max_wip) as [df|]; [|contradiction].
  exists df. reflexivity.
Qed.

Lemma In_WIP_levels (max_wip : Z) (x : Q) :
  In x (map inject_Z (arange 1 (max_wip + 1))) <->
  exists k : Z, (1 <= k <= max_wip)%Z /\ x = inject_Z k.
Proof.
  unfold arange. rewrite in_map_iff. split.
  - intros (z & <- & Hz). apply in_map_iff in Hz as (j & <- & Hj).
    apply in_seq in Hj. exists (1 + Z.of_nat j)%Z. split; [lia|reflexivity].
  - intros (k & Hk & ->). exists k. split; [reflexivity|].
    apply in_map_iff. exists (Z.to_nat (k - 1)). split; [lia|].
    apply in_seq. lia.
Qed.

Lemma df_scenarios_defined_stages (pl : ProductionLine) (max_wip : Z) :
  let wip := map inject_Z (arange 1 (max_wip + 1)) in
  defined (df_scenarios pl max_wip) <->
  defined (apply (TH_best pl) wip) /\ defined (TH_worst pl) /\
  defined (apply (TH_PWC pl) wip) /\ defined (apply (CT_best pl) wip) /\
  defined (apply (CT_worst pl) wip) /\ defined (apply (CT_PWC pl) wip).
Proof.
  intros wip. rewrite df_scenarios_stages. fold wip.
  destruct (apply (TH_best pl) wip); simpl; [|tauto].
  destruct (TH_worst pl); simpl; [|tauto].
  destruct (apply (TH_PWC pl) wip); simpl; [|tauto].
  destruct (apply (CT_best pl) wip); simpl; [|tauto].
  destruct (apply (CT_worst pl) wip); simpl; [|tauto].
  destruct (apply (CT_PWC pl) wip); simpl; tauto.
Qed.

Lemma defined_Ok (A : Type) (m : result A) :
  defined m <-> exists a : A, m = Ok a.
Proof.
  destruct m as [a|e]; simpl; split.
  - intros _. exists a. reflexivity.
  - intros _. exact I.
  - contradiction.
  - intros (a & H). discriminate H.
Qed.

Lemma TH_PWC_defined (pl : ProductionLine) (w : Q) :
  defined (TH_PWC pl w) <-> ~ W_0 pl + w - 1 == 0.
Proof.
  destruct (TH_PWC_cases pl w) as [Hnz Hz]. split.
  - intros Hd E. rewrite (Hz E) in Hd. exact Hd.
  - intros E. rewrite (Hnz E). exact I.
Qed.

(** When [df_scenarios] returns on a line built by [__init__]. *)
Lemma df_scenarios_defined_constructed (rb t0 : Q) (nm : option string)
    (pl : ProductionLine) (max_wip : Z) :
  init rb t0 nm = Ok pl ->
  (defined (df_scenarios pl max_wip) <->
   ~ t0 == 0 /\
   forall k : Z, (1 <= k <= max_wip)%Z -> ~ rb * t0 + inject_Z k - 1 == 0).
Proof.
  intros Hi. apply init_fields in Hi as (Er & Et & Ew & _).
  rewrite df_scenarios_defined_stages. split.
  - intros (_ & Hw & Hp & _). split.
    + unfold TH_worst in Hw. rewrite Et in Hw.
      apply truediv_defined in Hw. assumption.
    + intros k Hk. rewrite <- Ew. apply TH_PWC_defined.
      apply (proj1 (apply_defined_iff _ _) Hp).
      apply In_WIP_levels. exists k. split; [assumption|reflexivity].
  - intros (Ht & Hk).
    assert (Hw : defined (TH_worst pl)).
    { unfold TH_worst. rewrite Et. apply truediv_defined. assumption. }
    assert (Hall : forall x : Q,
              In x (map inject_Z (arange 1 (max_wip + 1))) ->
              ~ rb == 0 /\ ~ W_0 pl + x - 1 == 0).
    { intros x Hx. apply In_WIP_levels in Hx as (k & Hr & ->).
      split; [|rewrite Ew; apply Hk; assumption].
      intros E. apply (Hk 1%Z); [lia|]. rewrite E. ring. }
    repeat split; try assumption; apply apply_defined_iff; intros x Hx;
      destruct (Hall x Hx) as [Hr Hd].
    + unfold TH_best. destruct (Qle_bool x (W_0 pl)); [|exact I].
      rewrite Et. apply truediv_defined. assumption.
    + apply TH_PWC_defined. assumption.
    + unfold CT_best. destruct (Qle_bool x (W_0 pl)); [exact I|].
      rewrite Er. apply truediv_defined. assumption.
    + exact I.
    + unfold CT_PWC. rewrite Er. now rewrite (truediv_nonzero _ _ Hr).
Qed.

(** X7: [TH_worst] is evaluated whatever the number of rows.  On a line
    with T_0 = 0, df_scenarios raises ZeroDivisionError for every max_wip,
    also when max_wip < 1 and the table would have no row. *)
Theorem df_scenarios_zero_process_time (pl : ProductionLine) (max_wip : Z) :
  T_0 pl == 0 -> df_scenarios pl max_wip = Raise ZeroDivisionError.
Proof.
  intros Ht. rewrite df_scenarios_stages.
  set (wip := map inject_Z (arange 1 (max_wip + 1))).
  destruct (apply_only_zero_division (TH_best pl) wip) as [Hd|Hr].
  { intros w. apply (methods_only_zero_division pl w). }
  - destruct (apply (TH_best pl) wip) as [a|]; [|contradiction].
    cbn [bind]. unfold TH_worst. rewrite (truediv_zero _ _ Ht). reflexivity.
  - rewrite Hr. reflexivity.
Qed.

Lemma df_scenarios_zero_process_time_witness :
  df_scenarios {| r_b := 1 # 2; T_0 := 0; W_0 := (1 # 2) * 0; _name := None |}
    (-2) = Raise ZeroDivisionError.
Proof.
  apply (df_scenarios_zero_process_time
           {| r_b := 1 # 2; T_0 := 0; W_0 := (1 # 2) * 0; _name := None |}
           (-2)).
  reflexivity.
Defined.

(** X8: on a line built by [__init__] from any r_b and T_0 (zero and
    negative included), df_scenarios returns a table exactly when T_0 is
    not zero and r_b * T_0 + k - 1 is not zero for every integer WIP level
    k in 1, ..., max_wip. *)
Theorem df_scenarios_returns_iff (rb t0 : Q) (nm : option string)
    (pl : ProductionLine) (max_wip : Z) :
  init rb t0 nm = Ok pl ->
  ((exists df : DataFrame, df_scenarios pl max_wip = Ok df) <->
   ~ t0 == 0 /\
   forall k : Z, (1 <= k <= max_wip)%Z -> ~ rb * t0 + inject_Z k - 1 == 0).
Proof.
  intros Hi. rewrite <- defined_Ok.
  exact (df_scenarios_defined_constructed rb t0 nm pl max_wip Hi).
Qed.

Lemma df_scenarios_returns_iff_witness :
  (exists df : DataFrame, df_scenarios negative_line 3 = Ok df) <->
  ~ 1 == 0 /\
  forall k : Z, (1 <= k <= 3)%Z -> ~ -1 * 1 + inject_Z k - 1 == 0.
Proof.
  apply (df_scenarios_returns_iff (-1) 1 None negative_line 3).
  reflexivity.
Defined.

(** A returned table is the frame of its six computed columns. *)
Lemma df_scenarios_Ok_inv (pl : ProductionLine) (max_wip : Z) (df : DataFrame) :
  let idx := arange 1 (max_wip + 1) in
  let wip := map inject_Z idx in
  df_scenarios pl max_wip = Ok df ->
  exists (a : list Q) (b : Q) (c d e f : list Q),
    apply (TH_best pl) wip = Ok a /\ TH_worst pl = Ok b /\
    apply (TH_PWC pl) wip = Ok c /\ apply (CT_best pl) wip = Ok d /\
    apply (CT_worst pl) wip = Ok e /\ apply (CT_PWC pl) wip = Ok f /\
    df = scenario_frame idx a b c d e f.
Proof.
  intros idx wip. rewrite df_scenarios_stages. fold idx wip.
  destruct (apply (TH_best pl) wip) as [a|]; simpl; [|discriminate].
  destruct (TH_worst pl) as [b|]; simpl; [|discriminate].
  destruct (apply (TH_PWC pl) wip) as [c|]; simpl; [|discriminate].
  destruct (apply (CT_best pl) wip) as [d|]; simpl; [|discriminate].
  destruct (apply (CT_worst pl) wip) as [e|]; simpl; [|discriminate].
  destruct (apply (CT_PWC pl) wip) as [f|]; simpl; [|discriminate].
  intros H. injection H as <-. exists a, b, c, d, e, f.
  repeat split; reflexivity.
Qed.

Lemma nth_error_WIP_levels (max_wip : Z) (i : nat) :
  (i < Z.to_nat max_wip)%nat ->
  nth_error (arange 1 (max_wip + 1)) i = Some (Z.of_nat i + 1)%Z /\
  nth_error (map inject_Z (arange 1 (max_wip + 1))) i
  = Some (inject_Z (Z.of_nat i + 1)).
Proof.
  intros Hi.
  assert (H : nth_error (arange 1 (max_wip + 1)) i = Some (Z.of_nat i + 1)%Z).
  { rewrite nth_error_arange by lia. f_equal. lia. }
  split; [assumption|]. rewrite nth_error_map, H. reflexivity.
Qed.

(** The rows of a returned table, for any line. *)
Lemma df_scenarios_row (pl : ProductionLine) (max_wip : Z) (df : DataFrame)
    (i : nat) :
  df_scenarios pl max_wip = Ok df -> (i < Z.to_nat max_wip)%nat ->
  nth_error (index df) i = Some (Z.of_nat i + 1)%Z /\
  row_holds pl df i (inject_Z (Z.of_nat i + 1)).
Proof.
  intros Hdf Hi.
  apply df_scenarios_Ok_inv in Hdf
    as (a & b & c & d & e & f & Ea & Eb & Ec & Ed & Ee & Ef & ->).
  destruct (nth_error_WIP_levels max_wip i Hi) as [Hidx Hw].
  apply apply_Ok_nth in Ea as [_ Na]. apply apply_Ok_nth in Ec as [_ Nc].
  apply apply_Ok_nth in Ed as [_ Nd]. apply apply_Ok_nth in Ee as [_ Ne].
  apply apply_Ok_nth in Ef as [_ Nf].
  split; [assumption|].
  unfold row_holds, cell, scenario_frame.
  cbn [columns lookup String.eqb Ascii.eqb Bool.eqb].
  split; [assumption|].
  split; [exact (Na i _ Hw)|].
  split.
  { exists b. split; [|assumption]. apply nth_error_repeat.
    rewrite length_arange. lia. }
  split; [exact (Nc i _ Hw)|].
  split; [exact (Nd i _ Hw)|].
  split; [exact (Ne i _ Hw)|exact (Nf i _ Hw)].
Qed.

(** X9: for any line (valid or not), a table that df_scenarios returns has
    max(0, max_wip) rows and the seven columns in the order of creation,
    each with one cell per row; row i (from 0) has index i + 1 and holds the
    results of the six evaluations at WIP level i + 1. *)
Theorem df_scenarios_rows_any_line (pl : ProductionLine) (max_wip : Z)
    (df : DataFrame) :
  df_scenarios pl max_wip = Ok df ->
  nrows df = Z.to_nat max_wip /\
  map fst (columns df) = scenario_columns /\
  (forall (k : string) (s : list Q),
     In (k, s) (columns df) -> List.length s = nrows df) /\
  forall i : nat, (i < Z.to_nat max_wip)%nat ->
    nth_error (index df) i = Some (Z.of_nat i + 1)%Z /\
    row_holds pl df i (inject_Z (Z.of_nat i + 1)).
Proof.
  intros Hdf.
  split; [|split; [|split]].
  - apply df_scenarios_Ok_inv in Hdf
      as (a & b & c & d & e & f & _ & _ & _ & _ & _ & _ & ->).
    unfold nrows. cbn [scenario_frame index].
    rewrite length_arange. f_equal. lia.
  - apply df_scenarios_Ok_inv in Hdf
      as (a & b & c & d & e & f & _ & _ & _ & _ & _ & _ & ->).
    reflexivity.
  - apply df_scenarios_Ok_inv in Hdf
      as (a & b & c & d & e & f & Ea & Eb & Ec & Ed & Ee & Ef & ->).
    apply apply_Ok_nth in Ea as [La _]. apply apply_Ok_nth in Ec as [Lc _].
    apply apply_Ok_nth in Ed as [Ld _]. apply apply_Ok_nth in Ee as [Le _].
    apply apply_Ok_nth in Ef as [Lf _].
    rewrite length_map in La, Lc, Ld, Le, Lf.
    intros k s Hin. unfold nrows. cbn [scenario_frame index columns In] in *.
    repeat (destruct Hin as [Hin|Hin];
            [injection Hin as _ <-;
             rewrite ?repeat_length, ?length_map; congruence|]).
    contradiction.
  - intros i Hi. exact (df_scenarios_row pl max_wip df i Hdf Hi).
Qed.

Lemma df_scenarios_rows_any_line_witness :
  nrows negative_table = Z.to_nat 1 /\
  map fst (columns negative_table) = scenario_columns /\
  (forall (k : string) (s : list Q),
     In (k, s) (columns negative_table) ->
     List.length s = nrows negative_table) /\
  forall i : nat, (i < Z.to_nat 1)%nat ->
    nth_error (index negative_table) i = Some (Z.of_nat i + 1)%Z /\
    row_holds negative_line negative_table i (inject_Z (Z.of_nat i + 1)).
Proof.
  apply (df_scenarios_rows_any_line negative_line 1).
  reflexivity.
Defined.

Lemma apply_agree (f : Q -> result Q) (s1 s2 y1 y2 : list Q) (i : nat) (x : Q) :
  apply f s1 = Ok y1 -> apply f s2 = Ok y2 ->
  nth_error s1 i = Some x -> nth_error s2 i = Some x ->
  nth_error y1 i = nth_error y2 i.
Proof.
  intros E1 E2 H1 H2.
  apply apply_Ok_nth in E1 as [_ N1]. apply apply_Ok_nth in E2 as [_ N2].
  destruct (N1 i x H1) as (v1 & -> & F1).
  destruct (N2 i x H2) as (v2 & -> & F2).
  congruence.
Qed.

Lemma apply_defined_shorter (f : Q -> result Q) (m n : Z) :
  (m <= n)%Z ->
  defined (apply f (map inject_Z (arange 1 (n + 1)))) ->
  defined (apply f (map inject_Z (arange 1 (m + 1)))).
Proof.
  intros Hmn Hn. apply apply_defined_iff. intros x Hx.
  apply (proj1 (apply_defined_iff _ _) Hn).
  apply In_WIP_levels in Hx as (k & Hk & ->).
  apply In_WIP_levels. exists k. split; [lia|reflexivity].
Qed.

(** X10: tables of different sizes agree.  If df_scenarios returns a table
    for max_wip = n, then for every m <= n it returns a table for
    max_wip = m as well, with max(0, m) rows, and each of its cells equals
    the cell of the same column and row in the larger table. *)
Theorem df_scenarios_prefix (pl : ProductionLine) (m n : Z) :
  (m <= n)%Z -> defined (df_scenarios pl n) ->
  exists dfm dfn : DataFrame,
    df_scenarios pl m = Ok dfm /\ df_scenarios pl n = Ok dfn /\
    nrows dfm = Z.to_nat m /\
    forall (k : string) (i : nat), (i < Z.to_nat m)%nat ->
      cell dfm k i = cell dfn k i.
Proof.
  intros Hmn Hn.
  assert (Hm : defined (df_scenarios pl m)).
  { apply df_scenarios_defined_stages.
    apply df_scenarios_defined_stages in Hn
      as (H1 & H2 & H3 & H4 & H5 & H6).
    repeat split; try assumption;
      apply (apply_defined_shorter _ m n Hmn); assumption. }
  apply defined_Ok in Hm as (dfm & Em). apply defined_Ok in Hn as (dfn & En).
  exists dfm, dfn. split; [assumption|]. split; [assumption|].
  apply df_scenarios_Ok_inv in Em
    as (a & b & c & d & e & f & Ea & Eb & Ec & Ed & Ee & Ef & ->).
  apply df_scenarios_Ok_inv in En
    as (a' & b' & c' & d' & e' & f' & Ea' & Eb' & Ec' & Ed' & Ee' & Ef' & ->).
  split.
  { unfold nrows. cbn [scenario_frame index].
    rewrite length_arange. f_equal. lia. }
  intros k i Hi.
  destruct (nth_error_WIP_levels m i Hi) as [_ Hwm].
  destruct (nth_error_WIP_levels n i) as [_ Hwn]; [lia|].
  assert (Hb : b = b') by congruence. subst b'.
  unfold cell, scenario_frame. cbn [columns lookup].
  destruct (String.eqb k "WIP"); [congruence|].
  destruct (String.eqb k "TH Best Case");
    [exact (apply_agree _ _ _ _ _ i _ Ea Ea' Hwm Hwn)|].
  destruct (String.eqb k "TH Worst Case").
  { rewrite !nth_error_repeat by (rewrite length_arange; lia). reflexivity. }
  destruct (String.eqb k "TH Practical Worst Case");
    [exact (apply_agree _ _ _ _ _ i _ Ec Ec' Hwm Hwn)|].
  destruct (String.eqb k "CT Best Case");
    [exact (apply_agree _ _ _ _ _ i _ Ed Ed' Hwm Hwn)|].
  destruct (String.eqb k "CT Worst Case");
    [exact (apply_agree _ _ _ _ _ i _ Ee Ee' Hwm Hwn)|].
  destruct (String.eqb k "CT Practical Worst Case");
    [exact (apply_agree _ _ _ _ _ i _ Ef Ef' Hwm Hwn)|].
  reflexivity.
Qed.

Lemma df_scenarios_prefix_witness :
  exists dfm dfn : DataFrame,
    df_scenarios example_line 2 = Ok dfm /\
    df_scenarios example_line 4 = Ok dfn /\
    nrows dfm = Z.to_nat 2 /\
    forall (k : string) (i : nat), (i < Z.to_nat 2)%nat ->
      cell dfm k i = cell dfn k i.
Proof.
  apply (df_scenarios_prefix example_line 2 4).
  - lia.
  - vm_compute. exact I.
Defined.

Lemma littles_law_best (rb t0 : Q) (nm : option string)
    (pl : ProductionLine) (w : Q) :
  valid_line rb t0 nm pl -> littles_law (TH_best pl w) (CT_best pl w) w.
Proof.
  intros Hv. line_fields Hv. unfold littles_law, TH_best, CT_best.
  destruct (Qle_bool w (W_0 pl)).
  - exists (w / T_0 pl), (T_0 pl).
    split; [apply truediv_nonzero; rewrite Et; lra|].
    split; [reflexivity|]. rewrite Et. field. lra.
  - exists (r_b pl), (w / r_b pl).
    split; [reflexivity|].
    split; [apply truediv_nonzero; rewrite Er; lra|].
    rewrite Er. field. lra.
Qed.

Lemma littles_law_worst (rb t0 : Q) (nm : option string)
    (pl : ProductionLine) (w : Q) :
  valid_line rb t0 nm pl -> littles_law (TH_worst pl) (CT_worst pl w) w.
Proof.
  intros Hv. line_fields Hv.
  exists (1 / T_0 pl), (w * T_0 pl).
  split; [apply truediv_nonzero; rewrite Et; lra|].
  split; [reflexivity|]. rewrite Et. field. lra.
Qed.

Lemma df_scenarios_valid_defined (rb t0 : Q) (nm : option string)
    (pl : ProductionLine) (max_wip : Z) :
  valid_line rb t0 nm pl -> defined (df_scenarios pl max_wip).
Proof.
  intros (Hr & Ht & Hi).
  apply (df_scenarios_defined_constructed rb t0 nm pl max_wip Hi).
  split; [lra|]. intros k Hk.
  assert (0 < rb * t0) by (apply Qmult_lt_0_compat; assumption).
  assert (1 <= inject_Z k) by (rewrite <- (Zle_Qle 1); lia).
  lra.
Qed.

(** X11: on a line with r_b > 0 and T_0 > 0, df_scenarios returns a table
    for every max_wip, and in each of its rows the throughput cell times
    the cycle-time cell equals the WIP cell, in all three regimes. *)
Theorem df_scenarios_littles_law (rb t0 : Q) (nm : option string)
    (pl : ProductionLine) (max_wip : Z) :
  valid_line rb t0 nm pl ->
  exists df : DataFrame,
    df_scenarios pl max_wip = Ok df /\
    forall i : nat, (i < Z.to_nat max_wip)%nat -> row_littles_law df i.
Proof.
  intros Hv.
  pose proof (df_scenarios_valid_defined rb t0 nm pl max_wip Hv) as Hd.
  apply defined_Ok in Hd as (df & Edf). exists df. split; [assumption|].
  intros i Hi.
  destruct (df_scenarios_row pl max_wip df i Edf Hi) as [_ Hrow].
  set (w := inject_Z (Z.of_nat i + 1)) in *.
  assert (Hw1 : 1 <= w) by (unfold w; rewrite <- (Zle_Qle 1); lia).
  destruct Hrow as (Hwip & (thb & Cthb & Ethb) & (thw & Cthw & Ethw) &
                    (thp & Cthp & Ethp) & (ctb & Cctb & Ectb) &
                    (ctw & Cctw & Ectw) & (ctp & Cctp & Ectp)).
  destruct (littles_law_best rb t0 nm pl w Hv) as (a1 & b1 & A1 & B1 & P1).
  destruct (littles_law_worst rb t0 nm pl w Hv) as (a2 & b2 & A2 & B2 & P2).
  destruct (littles_law_PWC rb t0 nm pl w Hv) as (a3 & b3 & A3 & B3 & P3).
  { pose proof (valid_line_divisor rb t0 nm pl w Hv Hw1). lra. }
  exists w, thb, ctb, thw, ctw, thp, ctp.
  repeat (split; [assumption|]).
  assert (thb = a1) by congruence. assert (ctb = b1) by congruence.
  assert (thw = a2) by congruence. assert (ctw = b2) by congruence.
  assert (thp = a3) by congruence. assert (ctp = b3) by congruence.
  subst. repeat split; assumption.
Qed.

Lemma df_scenarios_littles_law_witness :
  exists df : DataFrame,
    df_scenarios example_line 3 = Ok df /\
    forall i : nat, (i < Z.to_nat 3)%nat -> row_littles_law df i.
Proof.
  apply (df_scenarios_littles_law (1 # 2) 10 None example_line 3).
  repeat split; reflexivity.
Defined.

(** * The figure of the scenarios *)

(** The largest WIP level of a table with rows is [max_wip]; a table
    without rows has none. *)
Lemma Series_max_levels (start : Z) (len k : nat) :
  Series_max (map inject_Z
                (map (fun i => (start + Z.of_nat i)%Z) (seq k (S len))))
  = Some (inject_Z (start + Z.of_nat (k + len))).
Proof.
  revert k. induction len as [|len IH]; intros k.
  - simpl. rewrite Nat.add_0_r. reflexivity.
  - change (seq k (S (S len))) with (k :: seq (S k) (S len)).
    cbn [map Series_max]. rewrite (IH (S k)).
    replace (S k + len)%nat with (k + S len)%nat by lia.
    assert (E : Qle_bool (inject_Z (start + Z.of_nat k))
                  (inject_Z (start + Z.of_nat (k + S len))) = true).
    { apply Qle_bool_iff. rewrite <- Zle_Qle. lia. }
    rewrite E. reflexivity.
Qed.

Lemma Series_max_WIP (max_wip : Z) :
  Series_max (map inject_Z (arange 1 (max_wip + 1))) =
  if (1 <=? max_wip)%Z then Some (inject_Z max_wip) else None.
Proof.
  destruct (1 <=? max_wip)%Z eqn:E.
  - apply Z.leb_le in E. unfold arange.
    replace (Z.to_nat (max_wip + 1 - 1)) with (S (Z.to_nat (max_wip - 1)))
      by lia.
    rewrite Series_max_levels. do 2 f_equal. lia.
  - apply Z.leb_gt in E. rewrite arange_empty by lia. reflexivity.
Qed.

(** The figure [plot_scenarios] builds from a returned table. *)
Lemma plot_scenarios_figure (pl : ProductionLine) (max_wip : Z)
    (a : list Q) (b : Q) (c d e f : list Q) :
  let idx := arange 1 (max_wip + 1) in
  let wip := map inject_Z idx in
  df_scenarios pl max_wip = Ok (scenario_frame idx a b c d e f) ->
  TH_worst pl = Ok b ->
  exists fig : Figure,
    plot_scenarios pl max_wip = Ok fig /\
    data fig =
      [{| trace_x := wip; trace_y := c;
          trace_name := "Practical Worst Case" |};
       {| trace_x := wip; trace_y := repeat b (List.length idx);
          trace_name := "Worst Case" |};
       {| trace_x := wip; trace_y := a; trace_name := "Best Case" |}] /\
    shapes fig =
      [{| shape_type := "line"; x0 := 0; y0 := r_b pl;
          x1 := Series_max wip; y1 := r_b pl; line := dashed_black |};
       {| shape_type := "line"; x0 := 0; y0 := b;
          x1 := Series_max wip; y1 := b; line := dashed_black |}] /\
    xaxis_range fig = Some (0, Series_max wip) /\
    yaxis_range fig = Some (0, 1 # 2) /\
    title fig
    = Some ("Throughput Time vs WIP for " ++ str_name (_name pl))%string /\
    map (fun n => (ann_x n, ann_y n)) (annotations fig) = [(5 # 2, r_b pl)].
Proof.
  intros idx wip Edf Eb. unfold plot_scenarios. rewrite Edf.
  unfold TH_worst in Eb.
  cbn [bind getitem lookup columns scenario_frame
       String.eqb Ascii.eqb Bool.eqb].
  rewrite Eb.
  cbn [bind getitem lookup columns scenario_frame
       String.eqb Ascii.eqb Bool.eqb].
  eexists. split; [reflexivity|].
  repeat split.
Qed.

(** X12: plot_scenarios fails exactly when df_scenarios does, and with the
    same exception: if df_scenarios raises, plot_scenarios raises that
    exception; if df_scenarios returns a table, plot_scenarios builds its
    figure and raises nothing (no missing column, no division by zero). *)
Theorem plot_scenarios_fails_with_table (pl : ProductionLine) (max_wip : Z) :
  match df_scenarios pl max_wip with
  | Ok _ => exists fig : Figure, plot_scenarios pl max_wip = Ok fig
  | Raise e => plot_scenarios pl max_wip = Raise e
  end.
Proof.
  destruct (df_scenarios pl max_wip) as [df|e] eqn:Edf.
  - pose proof Edf as Einv. apply df_scenarios_Ok_inv in Einv
      as (a & b & c & d & e & f & _ & Eb & _ & _ & _ & _ & ->).
    destruct (plot_scenarios_figure pl max_wip a b c d e f Edf Eb)
      as (fig & Efig & _).
    exists fig. assumption.
  - unfold plot_scenarios. rewrite Edf. reflexivity.
Qed.

(** X13: when df_scenarios returns a table for max_wip >= 1 (on any line),
    plot_scenarios builds a figure whose x axis runs from 0 to max_wip and
    whose y axis is fixed to the range 0 to 0.5; its traces are, in this
    order, the practical worst case, the worst case and the best case, each
    drawn over the WIP column with the throughput column of its regime; its
    two horizontal lines run from x = 0 to x = max_wip at the heights r_b
    and 1 / T_0; its title ends with the name of the line, or with "None"
    for a line without name. *)
Theorem plot_scenarios_content (pl : ProductionLine) (max_wip : Z)
    (df : DataFrame) :
  (1 <= max_wip)%Z -> df_scenarios pl max_wip = Ok df ->
  exists (fig : Figure) (h : Q),
    plot_scenarios pl max_wip = Ok fig /\
    TH_worst pl = Ok h /\
    xaxis_range fig = Some (0, Some (inject_Z max_wip)) /\
    yaxis_range fig = Some (0, 1 # 2) /\
    map trace_name (data fig)
    = ["Practical Worst Case"; "Worst Case"; "Best Case"]%string /\
    map (fun t => Some (trace_y t)) (data fig)
    = [lookup "TH Practical Worst Case" (columns df);
       lookup "TH Worst Case" (columns df);
       lookup "TH Best Case" (columns df)] /\
    (forall t : Scatter, In t (data fig) ->
       Some (trace_x t) = lookup "WIP" (columns df) /\
       trace_x t = map inject_Z (arange 1 (max_wip + 1))) /\
    map (fun s => (x0 s, y0 s, x1 s, y1 s)) (shapes fig)
    = [(0, r_b pl, Some (inject_Z max_wip), r_b pl);
       (0, h, Some (inject_Z max_wip), h)] /\
    title fig
    = Some ("Throughput Time vs WIP for " ++ str_name (name pl))%string.
Proof.
  intros Hn Edf. pose proof Edf as Einv.
  apply df_scenarios_Ok_inv in Einv
    as (a & b & c & d & e & f & _ & Eb & _ & _ & _ & _ & ->).
  destruct (plot_scenarios_figure pl max_wip a b c d e f Edf Eb)
    as (fig & Efig & Hdata & Hshapes & Hx & Hy & Htitle & _).
  assert (Hmax : Series_max (map inject_Z (arange 1 (max_wip + 1)))
                 = Some (inject_Z max_wip)).
  { rewrite Series_max_WIP.
    apply Z.leb_le in Hn. rewrite Hn. reflexivity. }
  rewrite Hmax in Hshapes, Hx.
  exists fig, b. rewrite Hdata, Hshapes.
  split; [assumption|]. split; [assumption|]. split; [assumption|].
  split; [assumption|]. split; [reflexivity|]. split; [reflexivity|].
  split; [|split; [reflexivity|exact Htitle]].
  intros t Ht. cbn [In] in Ht.
  destruct Ht as [<-|[<-|[<-|[]]]]; split; reflexivity.
Qed.

Lemma plot_scenarios_content_witness :
  exists (fig : Figure) (h : Q),
    plot_scenarios negative_line 1 = Ok fig /\
    TH_worst negative_line = Ok h /\
    xaxis_range fig = Some (0, Some (inject_Z 1)) /\
    yaxis_range fig = Some (0, 1 # 2) /\
    map trace_name (data fig)
    = ["Practical Worst Case"; "Worst Case"; "Best Case"]%string /\
    map (fun t => Some (trace_y t)) (data fig)
    = [lookup "TH Practical Worst Case" (columns negative_table);
       lookup "TH Worst Case" (columns negative_table);
       lookup "TH Best Case" (columns negative_table)] /\
    (forall t : Scatter, In t (data fig) ->
       Some (trace_x t) = lookup "WIP" (columns negative_table) /\
       trace_x t = map inject_Z (arange 1 (1 + 1))) /\
    map (fun s => (x0 s, y0 s, x1 s, y1 s)) (shapes fig)
    = [(0, r_b negative_line, Some (inject_Z 1), r_b negative_line);
       (0, h, Some (inject_Z 1), h)] /\
    title fig
    = Some ("Throughput Time vs WIP for " ++ str_name (name negative_line))%string.
Proof.
  apply (plot_scenarios_content negative_line 1 negative_table).
  - lia.
  - reflexivity.
Defined.

(** X14: with max_wip < 1 on a line with T_0 not zero, plot_scenarios does
    not fail: it builds a figure with three traces without points, and the
    upper end of its x axis and the right end of its two horizontal lines
    are the maximum of an empty column, which is not a number. *)
Theorem plot_scenarios_no_rows (pl : ProductionLine) (max_wip : Z) :
  ~ T_0 pl == 0 -> (max_wip < 1)%Z ->
  exists fig : Figure,
    plot_scenarios pl max_wip = Ok fig /\
    xaxis_range fig = Some (0, None) /\
    List.length (data fig) = 3%nat /\
    (forall t : Scatter, In t (data fig) -> trace_x t = [] /\ trace_y t = []) /\
    List.length (shapes fig) = 2%nat /\
    (forall s : Shape, In s (shapes fig) -> x1 s = None).
Proof.
  intros Ht Hn.
  pose proof (df_scenarios_empty pl max_wip Ht Hn) as Edf.
  assert (Eb : TH_worst pl = Ok (1 / T_0 pl)).
  { unfold TH_worst. apply truediv_nonzero. assumption. }
  assert (Eidx : arange 1 (max_wip + 1) = []) by (apply arange_empty; lia).
  assert (Eframe : empty_frame
                   = scenario_frame (arange 1 (max_wip + 1)) [] (1 / T_0 pl)
                       [] [] [] []).
  { rewrite Eidx. reflexivity. }
  rewrite Eframe in Edf.
  destruct (plot_scenarios_figure pl max_wip _ _ _ _ _ _ Edf Eb)
    as (fig & Efig & Hdata & Hshapes & Hx & _).
  rewrite Eidx in Hdata, Hshapes, Hx. cbn [map Series_max] in *.
  exists fig. rewrite Hdata, Hshapes.
  split; [assumption|]. split; [assumption|]. split; [reflexivity|].
  split.
  { intros t Hin. cbn [In] in Hin.
    destruct Hin as [<-|[<-|[<-|[]]]]; split; reflexivity. }
  split; [reflexivity|].
  intros s Hin. cbn [In] in Hin.
  destruct Hin as [<-|[<-|[]]]; reflexivity.
Qed.

Lemma plot_scenarios_no_rows_witness :
  exists fig : Figure,
    plot_scenarios example_line 0 = Ok fig /\
    xaxis_range fig = Some (0, None) /\
    List.length (data fig) = 3%nat /\
    (forall t : Scatter, In t (data fig) -> trace_x t = [] /\ trace_y t = []) /\
    List.length (shapes fig) = 2%nat /\
    (forall s : Shape, In s (shapes fig) -> x1 s = None).
Proof.
  apply (plot_scenarios_no_rows example_line 0).
  - discriminate.
  - reflexivity.
Defined.

Lemma apply_Ok_In (f : Q -> result Q) (s ys : list Q) (y : Q) :
  apply f s = Ok ys -> In y ys -> exists x : Q, In x s /\ f x = Ok y.
Proof.
  revert ys. induction s as [|x s IH]; intros ys E Hy.
  - injection E as <-. contradiction.
  - simpl in E. destruct (f x) as [v|] eqn:Ev; [|discriminate E].
    simpl in E. destruct (apply f s) as [vs|] eqn:Evs; [|discriminate E].
    injection E as <-. destruct Hy as [<-|Hy].
    + exists x. split; [now left|assumption].
    + destruct (IH vs eq_refl Hy) as (x' & Hx' & Ex').
      exists x'. split; [now right|assumption].
Qed.

(** The three throughputs on a valid line with [W_0 >= 1], at [w >= 1]. *)
Lemma TH_bounds (rb t0 : Q) (nm : option string)
    (pl : ProductionLine) (w : Q) :
  valid_line rb t0 nm pl -> 1 <= rb * t0 -> 1 <= w ->
  exists a b c : Q,
    TH_worst pl = Ok a /\ TH_PWC pl w = Ok b /\ TH_best pl w = Ok c /\
    0 < a /\ a <= b /\ b <= c /\ c <= rb.
Proof.
  intros Hv HW Hw.
  destruct (TH_best_value rb t0 nm pl w Hv) as (h & Eh & Hh1 & Hh2 & Hh3 & Hh4).
  pose proof (TH_worst_value rb t0 nm pl Hv) as Ea.
  pose proof Hv as Hv'. line_fields Hv'.
  set (d := rb * t0 + w - 1).
  assert (Hd : 0 < d) by (unfold d; lra).
  pose proof (TH_PWC_value rb t0 nm pl w Hv Hd) as Eb. fold d in Eb.
  assert (Hmul : w / d * rb == w * rb / d) by (field; lra).
  exists (1 / t0), (w / d * rb), h.
  split; [assumption|]. split; [assumption|]. split; [assumption|].
  split; [apply lt_div_iff; [assumption|lra]|].
  split; [|split; [|assumption]].
  - assert (0 <= (w - 1) * (rb * t0 - 1))
      by (apply Qmult_le_0_compat; lra).
    rewrite Hmul. apply le_div_iff; [assumption|].
    assert (E : 1 / t0 * d == d / t0) by (field; lra).
    rewrite E. apply div_le_iff; [assumption|]. unfold d. lra.
  - rewrite Hmul. apply div_le_iff; [assumption|].
    destruct (Qlt_le_dec (rb * t0) w) as [Hlt|Hle].
    + rewrite (Hh4 Hlt).
      assert (0 <= rb * (d - w)) by (apply Qmult_le_0_compat; unfold d; lra).
      lra.
    + rewrite (Hh3 Hle).
      assert (E : w / t0 * d == w * d / t0) by (field; lra).
      rewrite E. apply le_div_iff; [assumption|].
      assert (0 <= w * (w - 1)) by (apply Qmult_le_0_compat; lra).
      unfold d. lra.
Qed.

(** X15: on a line with 0 < r_b <= 0.5, T_0 > 0 and W_0 >= 1, for every
    max_wip the figure of plot_scenarios shows all it draws: every point of
    its three traces and both horizontal lines lie within the fixed range
    0 to 0.5 of the y axis. *)
Theorem plot_scenarios_visible (rb t0 : Q) (nm : option string)
    (pl : ProductionLine) (max_wip : Z) :
  valid_line rb t0 nm pl -> rb <= 1 # 2 -> 1 <= W_0 pl ->
  exists fig : Figure,
    plot_scenarios pl max_wip = Ok fig /\
    yaxis_range fig = Some (0, 1 # 2) /\
    (forall (t : Scatter) (y : Q),
       In t (data fig) -> In y (trace_y t) -> 0 <= y <= 1 # 2) /\
    (forall s : Shape, In s (shapes fig) ->
       0 <= y0 s <= 1 # 2 /\ y1 s = y0 s).
Proof.
  intros Hv Hrb HW.
  pose proof (df_scenarios_valid_defined rb t0 nm pl max_wip Hv) as Hd.
  apply defined_Ok in Hd as (df & Edf). pose proof Edf as Einv.
  apply df_scenarios_Ok_inv in Einv
    as (a & b & c & d & e & f & Ea & Eb & Ec & _ & _ & _ & ->).
  destruct (plot_scenarios_figure pl max_wip a b c d e f Edf Eb)
    as (fig & Efig & Hdata & Hshapes & _ & Hy & _).
  pose proof Hv as Hv'. line_fields Hv'. rewrite Ew in HW.
  assert (Hpt : forall x : Q,
            In x (map inject_Z (arange 1 (max_wip + 1))) ->
            forall y : Q,
              (TH_best pl x = Ok y \/ TH_PWC pl x = Ok y \/ b = y) ->
              0 <= y <= 1 # 2).
  { intros x Hx y Hyv. apply WIP_levels_ge_1 in Hx.
    destruct (TH_bounds rb t0 nm pl x Hv HW Hx)
      as (va & vb & vc & E1 & E2 & E3 & B1 & B2 & B3 & B4).
    assert (b = va) by congruence. subst va.
    destruct Hyv as [Hyv|[Hyv|Hyv]].
    - assert (y = vc) by congruence. subst. lra.
    - assert (y = vb) by congruence. subst. lra.
    - subst. lra. }
  exists fig. rewrite Hdata, Hshapes.
  split; [assumption|]. split; [assumption|]. split.
  - intros t y Ht Hin. cbn [In] in Ht.
    destruct Ht as [<-|[<-|[<-|[]]]]; cbn [trace_y] in Hin.
    + destruct (apply_Ok_In _ _ _ _ Ec Hin) as (x & Hx & Ex).
      apply (Hpt x Hx). tauto.
    + pose proof (repeat_spec _ _ _ Hin) as ->.
      destruct (map inject_Z (arange 1 (max_wip + 1))) as [|x xs] eqn:Ewip.
      { apply (f_equal (@List.length Q)) in Ewip.
        rewrite length_map in Ewip. rewrite Ewip in Hin. contradiction. }
      apply (Hpt x); [now left|tauto].
    + destruct (apply_Ok_In _ _ _ _ Ea Hin) as (x & Hx & Ex).
      apply (Hpt x Hx). tauto.
  - intros s Hs. cbn [In] in Hs.
    destruct Hs as [<-|[<-|[]]]; cbn [y0 y1]; split; try reflexivity.
    + rewrite Er. lra.
    + pose proof (TH_worst_value rb t0 nm pl Hv) as Eb'.
      assert (E : b = 1 / t0) by congruence. rewrite E.
      assert (0 < 1 / t0) by (apply lt_div_iff; [assumption|lra]).
      assert (1 / t0 <= rb) by (apply div_le_iff; [assumption|lra]).
      lra.
Qed.

Lemma plot_scenarios_visible_witness :
  exists fig : Figure,
    plot_scenarios example_line 3 = Ok fig /\
    yaxis_range fig = Some (0, 1 # 2) /\
    (forall (t : Scatter) (y : Q),
       In t (data fig) -> In y (trace_y t) -> 0 <= y <= 1 # 2) /\
    (forall s : Shape, In s (shapes fig) ->
       0 <= y0 s <= 1 # 2 /\ y1 s = y0 s).
Proof.
  apply (plot_scenarios_visible (1 # 2) 10 None example_line 3).
  - repeat split; reflexivity.
  - discriminate.
  - discriminate.
Defined.

(** X16: the y axis is fixed to the range 0 to 0.5 whatever the line.  On a
    line with r_b > 0.5 and T_0 > 0 the bottleneck-rate line, its
    annotation and every point of the best-case trace at a WIP level above
    W_0 are at the height r_b, above the range of the y axis. *)
Theorem plot_scenarios_cut_off (rb t0 : Q) (nm : option string)
    (pl : ProductionLine) (max_wip : Z) :
  valid_line rb t0 nm pl -> 1 # 2 < rb ->
  exists fig : Figure,
    plot_scenarios pl max_wip = Ok fig /\
    yaxis_range fig = Some (0, 1 # 2) /\
    (exists s : Shape, nth_error (shapes fig) 0 = Some s /\
       y0 s = rb /\ y1 s = rb) /\
    map ann_y (annotations fig) = [rb] /\
    exists t : Scatter,
      nth_error (data fig) 2 = Some t /\
      trace_name t = "Best Case"%string /\
      forall i : nat, (i < Z.to_nat max_wip)%nat ->
        W_0 pl < inject_Z (Z.of_nat i + 1) ->
        nth_error (trace_y t) i = Some rb.
Proof.
  intros Hv Hrb.
  pose proof (df_scenarios_valid_defined rb t0 nm pl max_wip Hv) as Hd.
  apply defined_Ok in Hd as (df & Edf). pose proof Edf as Einv.
  apply df_scenarios_Ok_inv in Einv
    as (a & b & c & d & e & f & Ea & Eb & _ & _ & _ & _ & ->).
  destruct (plot_scenarios_figure pl max_wip a b c d e f Edf Eb)
    as (fig & Efig & Hdata & Hshapes & _ & Hy & _ & Hann).
  pose proof Hv as Hv'. line_fields Hv'.
  exists fig. rewrite Hdata, Hshapes.
  split; [assumption|]. split; [assumption|].
  split.
  { eexists. split; [reflexivity|]. cbn [y0 y1]. split; assumption. }
  split.
  { assert (E : map ann_y (annotations fig)
                = map snd (map (fun n => (ann_x n, ann_y n))
                             (annotations fig)))
      by (rewrite map_map; reflexivity).
    rewrite E, Hann, <- Er. reflexivity. }
  eexists. split; [reflexivity|]. split; [reflexivity|].
  cbn [trace_y]. intros i Hi Hlt.
  destruct (nth_error_WIP_levels max_wip i Hi) as [_ Hw].
  apply apply_Ok_nth in Ea as [_ Na].
  destruct (Na i _ Hw) as (y & Hy' & Ey). rewrite Hy'. f_equal.
  destruct (TH_best_value rb t0 nm pl (inject_Z (Z.of_nat i + 1)) Hv)
    as (h & Eh & _ & _ & _ & Hh4).
  rewrite Ew in Hlt. rewrite (Hh4 Hlt) in Eh. congruence.
Qed.

Lemma plot_scenarios_cut_off_witness :
  exists fig : Figure,
    plot_scenarios {| r_b := 2; T_0 := 1; W_0 := 2 * 1; _name := None |} 4
    = Ok fig /\
    yaxis_range fig = Some (0, 1 # 2) /\
    (exists s : Shape, nth_error (shapes fig) 0 = Some s /\
       y0 s = 2 /\ y1 s = 2) /\
    map ann_y (annotations fig) = [2] /\
    exists t : Scatter,
      nth_error (data fig) 2 = Some t /\
      trace_name t = "Best Case"%string /\
      forall i : nat, (i < Z.to_nat 4)%nat ->
        W_0 {| r_b := 2; T_0 := 1; W_0 := 2 * 1; _name := None |}
        < inject_Z (Z.of_nat i + 1) ->
        nth_error (trace_y t) i = Some 2.
Proof.
  apply (plot_scenarios_cut_off 2 1 None
           {| r_b := 2; T_0 := 1; W_0 := 2 * 1; _name := None |} 4).
  - repeat split; reflexivity.
  - reflexivity.
Defined.
